(** * The XWayland surface state bridge (mir frontend_xwayland/xwayland_surface.cpp)

    A shallow embedding of [mir::frontend::XWaylandSurface]: the window-state
    value type, the handlers for the legacy client messages, the
    compositor-side callbacks and the transient-for resolution, followed by
    the properties of the specification stated against them.

    Conventions of the embedding.
    - [uint32_t], [xcb_atom_t] and [xcb_window_t] values are [Z]; the
      handlers compare them and test mask bits, they do no arithmetic on
      them.  Geometry coordinates ([int] in the source) are [Z] as well:
      the sums and differences of [set_position] and of the content offset
      are the source's as long as the source does not overflow.
    - Every handler runs to completion on its own: the bridge's mutex
      serialises the accesses to its fields, and the model follows one
      handler at a time.
    - The calls made on the X connection and on the shell are recorded, in
      program order, in a log; what the two collaborators answer (live
      surfaces, property replies, the surface the shell creates) is an input
      of the model.
    - A C++ exception is an outcome of its own; the fields keep the value
      they had when it was thrown.
    - [log_debug] output is diagnostic only and is left out. *)

From stdpp Require Import base option list gmap strings pretty.
From Stdlib Require Import ZArith Lia.

Local Open Scope Z_scope.

(** ** Protocol constants *)

Definition xcb_atom_t := Z.
Definition xcb_window_t := Z.

Definition XCB_WINDOW_NONE : xcb_window_t := 0.

(** ICCCM 4.1.3.1, [enum class WmState : uint32_t]. *)
Inductive WmState := WITHDRAWN | NORMAL | ICONIC.

Definition WmState_value (s : WmState) : Z :=
  match s with
  | WITHDRAWN => 0
  | NORMAL => 1
  | ICONIC => 3
  end.

(** [xcb_config_window_t] bits of a configure request's value mask. *)
Definition XCB_CONFIG_WINDOW_X : Z := 1.
Definition XCB_CONFIG_WINDOW_Y : Z := 2.
Definition XCB_CONFIG_WINDOW_WIDTH : Z := 4.
Definition XCB_CONFIG_WINDOW_HEIGHT : Z := 8.

Inductive xcb_stack_mode_t := XCB_STACK_MODE_ABOVE | XCB_STACK_MODE_BELOW.

(** The compositor's window-state enumeration.  Its declaration lives in a
    toolkit header outside this component; the constructors are the
    enumerators that the [switch] of [updated_from] names, the last one
    being the enumeration's count sentinel. *)
Inductive MirWindowState :=
  | mir_window_state_unknown
  | mir_window_state_restored
  | mir_window_state_minimized
  | mir_window_state_maximized
  | mir_window_state_vertmaximized
  | mir_window_state_fullscreen
  | mir_window_state_horizmaximized
  | mir_window_state_hidden
  | mir_window_state_attached
  | mir_window_states.

#[global] Instance MirWindowState_eq_dec : EqDecision MirWindowState.
Proof. solve_decision. Defined.

(** ** XWaylandSurface::WindowState *)

Module WindowState.

Record t := mk {
  withdrawn : bool;
  minimized : bool;
  maximized : bool;
  fullscreen : bool
}.

#[global] Instance eq_dec : EqDecision t.
Proof. solve_decision. Defined.

Definition set_withdrawn (b : bool) (s : t) : t :=
  mk b (minimized s) (maximized s) (fullscreen s).
Definition set_minimized (b : bool) (s : t) : t :=
  mk (withdrawn s) b (maximized s) (fullscreen s).
Definition set_maximized (b : bool) (s : t) : t :=
  mk (withdrawn s) (minimized s) b (fullscreen s).
Definition set_fullscreen (b : bool) (s : t) : t :=
  mk (withdrawn s) (minimized s) (maximized s) b.

(** [WindowState::operator==] *)
Definition eqb (this that : t) : bool :=
  Bool.eqb (withdrawn this) (withdrawn that) &&
  Bool.eqb (minimized this) (minimized that) &&
  Bool.eqb (maximized this) (maximized that) &&
  Bool.eqb (fullscreen this) (fullscreen that).

(** [WindowState::mir_window_state]; withdrawn is ignored. *)
Definition mir_window_state (this : t) : MirWindowState :=
  if minimized this then mir_window_state_minimized
  else if fullscreen this then mir_window_state_fullscreen
  else if maximized this then mir_window_state_maximized
  else mir_window_state_restored.

(** [WindowState::updated_from] *)
Definition updated_from (this : t) (state : MirWindowState) : t :=
  let updated := set_withdrawn false this in
  match state with
  | mir_window_state_hidden
  | mir_window_state_minimized =>
      set_minimized true updated
  | mir_window_state_fullscreen =>
      set_fullscreen true (set_minimized false updated)
  | mir_window_state_maximized
  | mir_window_state_vertmaximized
  | mir_window_state_horizmaximized =>
      set_fullscreen false (set_maximized true (set_minimized false updated))
  | mir_window_state_restored
  | mir_window_state_unknown
  | mir_window_state_attached =>
      set_fullscreen false (set_maximized false (set_minimized false updated))
  | mir_window_states =>
      updated
  end.

End WindowState.

(** ** Geometry ([mir::geometry]) *)

Module geom.

Record Point := mkPoint { x : Z; y : Z }.
Record Displacement := mkDisplacement { dx : Z; dy : Z }.
Record Size := mkSize { width : Z; height : Z }.
Record Rectangle := mkRectangle { top_left : Point; size : Size }.

#[global] Instance Point_eq_dec : EqDecision Point.
Proof. solve_decision. Defined.
#[global] Instance Displacement_eq_dec : EqDecision Displacement.
Proof. solve_decision. Defined.
#[global] Instance Size_eq_dec : EqDecision Size.
Proof. solve_decision. Defined.

Definition as_displacement (p : Point) : Displacement :=
  mkDisplacement (x p) (y p).
(** [Point + Displacement] and [Point - Displacement] *)
Definition add (p : Point) (d : Displacement) : Point :=
  mkPoint (x p + dx d) (y p + dy d).
Definition sub (p : Point) (d : Displacement) : Point :=
  mkPoint (x p - dx d) (y p - dy d).

End geom.

(** ** The collaborators, at their interface *)

Definition SurfaceId := positive.
Definition SessionId := positive.
Definition WlSurfaceId := positive.

Inductive MirPlacementGravity := mir_placement_gravity_northwest.
Inductive MirWindowType := mir_window_type_freestyle.

(** [shell::SurfaceSpecification], restricted to the attributes this
    component assigns.  [spec_parent] is an optional weak reference: it can
    be set and hold a null reference. *)
Record SurfaceSpecification := mkSpec {
  spec_application_id : option string;
  spec_name : option string;
  spec_parent : option (option SurfaceId);
  spec_top_left : option geom.Point;
  spec_aux_rect : option geom.Rectangle;
  spec_placement_hints : option Z;
  spec_surface_placement_gravity : option MirPlacementGravity;
  spec_aux_rect_placement_gravity : option MirPlacementGravity;
  spec_width : option Z;
  spec_height : option Z;
  spec_state : option MirWindowState
}.

Definition empty_spec : SurfaceSpecification :=
  mkSpec None None None None None None None None None None None.

Definition spec_is_empty (s : SurfaceSpecification) : bool :=
  match s with
  | mkSpec None None None None None None None None None None None => true
  | _ => false
  end.

(** What the scene graph reports of a live surface. *)
Record Surface := mkSurface {
  surface_top_left : geom.Point;
  surface_content_offset : geom.Displacement;
  surface_content_size : geom.Size;
  surface_parent : option SurfaceId;
  surface_state : MirWindowState;
  surface_session : option SessionId
}.

(** [scene::SurfaceCreationParameters] as [attach_wl_surface] fills it;
    [params_update] is the pending specification handed to
    [params.update_from]. *)
Record SurfaceCreationParameters := mkParams {
  params_streams : list WlSurfaceId;
  params_input_shape : list geom.Rectangle;
  params_size : geom.Size;
  params_top_left : geom.Point;
  params_type : MirWindowType;
  params_state : MirWindowState;
  params_server_side_decorated : bool;
  params_update : option SurfaceSpecification
}.

(** The atoms cached by the connection. *)
Record XCBConnection := mkConnection {
  wm_state : xcb_atom_t;
  wm_protocols : xcb_atom_t;
  net_wm_name : xcb_atom_t;
  net_wm_state : xcb_atom_t;
  net_wm_state_hidden : xcb_atom_t;
  net_wm_state_maximized_horz : xcb_atom_t;
  net_wm_state_maximized_vert : xcb_atom_t;
  net_wm_state_fullscreen : xcb_atom_t
}.

Definition XCB_ATOM_WM_NAME : xcb_atom_t := 39.
Definition XCB_ATOM_WM_CLASS : xcb_atom_t := 67.
Definition XCB_ATOM_WM_TRANSIENT_FOR : xcb_atom_t := 68.

Inductive XCBType := XCBType_ATOM | XCBType_WM_STATE.

(** The calls a handler makes on the connection and on the shell. *)
Inductive Call :=
  | set_property (type : XCBType) (window : xcb_window_t)
      (property : xcb_atom_t) (values : list Z)
  | xcb_delete_property (window : xcb_window_t) (property : xcb_atom_t)
  | configure_window (window : xcb_window_t)
      (position : option geom.Point) (size : option geom.Size)
      (sibling : option xcb_window_t) (stack_mode : option xcb_stack_mode_t)
  | read_property (window : xcb_window_t) (property : xcb_atom_t)
  | flush
  | modify_surface (session : option SessionId) (surface : SurfaceId)
      (mods : SurfaceSpecification)
  | create_surface (session : SessionId) (params : SurfaceCreationParameters)
      (observer : WlSurfaceId).

(** ** The bridge's fields *)

Record Cached := mkCached {
  override_redirect : bool;
  cached_size : geom.Size;
  cached_top_left : geom.Point;
  supported_wm_protocols : gset Z;
  state : WindowState.t
}.

Record XWaylandSurface := mkBridge {
  window : xcb_window_t;
  cached : Cached;
  nullable_pending_spec : option SurfaceSpecification;
  weak_scene_surface : option SurfaceId;
  weak_session : option SessionId;
  surface_observer : option WlSurfaceId
}.

Definition set_cached (c : Cached) (b : XWaylandSurface) : XWaylandSurface :=
  mkBridge (window b) c (nullable_pending_spec b) (weak_scene_surface b)
    (weak_session b) (surface_observer b).
Definition set_cached_state (s : WindowState.t) (b : XWaylandSurface) :=
  set_cached
    (mkCached (override_redirect (cached b)) (cached_size (cached b))
       (cached_top_left (cached b)) (supported_wm_protocols (cached b)) s) b.
Definition set_supported_wm_protocols (p : gset Z) (b : XWaylandSurface) :=
  set_cached
    (mkCached (override_redirect (cached b)) (cached_size (cached b))
       (cached_top_left (cached b)) p (state (cached b))) b.
Definition set_nullable_pending_spec (p : option SurfaceSpecification)
    (b : XWaylandSurface) : XWaylandSurface :=
  mkBridge (window b) (cached b) p (weak_scene_surface b)
    (weak_session b) (surface_observer b).
Definition set_weak_scene_surface (s : option SurfaceId)
    (b : XWaylandSurface) : XWaylandSurface :=
  mkBridge (window b) (cached b) (nullable_pending_spec b) s
    (weak_session b) (surface_observer b).
Definition set_weak_session (s : option SessionId)
    (b : XWaylandSurface) : XWaylandSurface :=
  mkBridge (window b) (cached b) (nullable_pending_spec b)
    (weak_scene_surface b) s (surface_observer b).
Definition set_surface_observer (o : option WlSurfaceId)
    (b : XWaylandSurface) : XWaylandSurface :=
  mkBridge (window b) (cached b) (nullable_pending_spec b)
    (weak_scene_surface b) (weak_session b) o.

(** What a handler can observe of the rest of the server while it runs:
    the surfaces and sessions that are alive (a weak reference locks to
    something only while its target is alive), and the window manager. *)
Record XWaylandWM := mkWM {
  wm_surfaces : gmap Z XWaylandSurface;
  wm_focused_window : option xcb_window_t
}.

Record World := mkWorld {
  connection : XCBConnection;
  scene : gmap positive Surface;
  sessions : gset positive;
  xwm : XWaylandWM
}.

(** Modelled from the spec: [XWaylandWM::get_wm_surface] and
    [XWaylandWM::get_focused_window] belong to the window manager, whose
    source is not part of this component; the window manager owns the table
    of bridges by window identifier and knows the focused window, if any. *)
Definition get_wm_surface (wm : XWaylandWM) (w : xcb_window_t)
    : option XWaylandSurface := wm_surfaces wm !! w.
Definition get_focused_window (wm : XWaylandWM) : option xcb_window_t :=
  wm_focused_window wm.

(** [std::weak_ptr::lock] on a surface and on a session reference. *)
Definition lock_surface (w : World) (ref : option SurfaceId)
    : option (SurfaceId * Surface) :=
  match ref with
  | Some id => match scene w !! id with
               | Some s => Some (id, s)
               | None => None
               end
  | None => None
  end.

Definition lock_session (w : World) (ref : option SessionId)
    : option SessionId :=
  match ref with
  | Some id => if decide (id ∈ sessions w) then Some id else None
  | None => None
  end.

(** ** Handlers as computations

    A handler reads and writes the bridge's fields, appends to the log of
    calls, and either returns or throws. *)

Record Machine := mkMachine {
  self : XWaylandSurface;
  calls : list Call
}.

Inductive Outcome (A : Type) :=
  | Returned (a : A)
  | Thrown (what : string).
Arguments Returned {A} a.
Arguments Thrown {A} what.

Definition M (A : Type) : Type := Machine -> Outcome A * Machine.

#[global] Instance M_ret : MRet M := fun A a m => (Returned a, m).
#[global] Instance M_bind : MBind M := fun A B f c m =>
  match c m with
  | (Returned a, m') => f a m'
  | (Thrown e, m') => (Thrown e, m')
  end.

Definition get_self : M XWaylandSurface := fun m => (Returned (self m), m).
Definition modify_self (f : XWaylandSurface -> XWaylandSurface) : M unit :=
  fun m => (Returned tt, mkMachine (f (self m)) (calls m)).
Definition call (c : Call) : M unit :=
  fun m => (Returned tt, mkMachine (self m) (calls m ++ [c])).
Definition throw {A} (what : string) : M A := fun m => (Thrown what, m).

(** Running a handler on a bridge, with an empty log. *)
Definition run {A} (c : M A) (b : XWaylandSurface) : Outcome A * Machine :=
  c (mkMachine b []).

Fixpoint for_each {A} (f : A -> M unit) (l : list A) : M unit :=
  match l with
  | [] => mret tt
  | a :: l' => f a ;; for_each f l'
  end.

(** ** Helpers of the anonymous namespace *)

(** [set_position]: the parent can be null. *)
Definition set_position (parent : option (SurfaceId * Surface))
    (top_left : geom.Point) (spec : SurfaceSpecification)
    : SurfaceSpecification :=
  match parent with
  | Some (_, p) =>
      let local_top_left :=
        geom.sub
          (geom.sub top_left (geom.as_displacement (surface_top_left p)))
          (surface_content_offset p) in
      mkSpec (spec_application_id spec) (spec_name spec) (spec_parent spec)
        (spec_top_left spec)
        (Some (geom.mkRectangle local_top_left (geom.mkSize 1 1)))
        (Some 0)
        (Some mir_placement_gravity_northwest)
        (Some mir_placement_gravity_northwest)
        (spec_width spec) (spec_height spec) (spec_state spec)
  | None =>
      mkSpec (spec_application_id spec) (spec_name spec) (spec_parent spec)
        (Some top_left)
        (spec_aux_rect spec) (spec_placement_hints spec)
        (spec_surface_placement_gravity spec)
        (spec_aux_rect_placement_gravity spec)
        (spec_width spec) (spec_height spec) (spec_state spec)
  end.

Definition set_spec_application_id (v : string) (spec : SurfaceSpecification) :=
  mkSpec (Some v) (spec_name spec) (spec_parent spec)
    (spec_top_left spec) (spec_aux_rect spec) (spec_placement_hints spec)
    (spec_surface_placement_gravity spec)
    (spec_aux_rect_placement_gravity spec)
    (spec_width spec) (spec_height spec) (spec_state spec).
Definition set_spec_name (v : string) (spec : SurfaceSpecification) :=
  mkSpec (spec_application_id spec) (Some v) (spec_parent spec)
    (spec_top_left spec) (spec_aux_rect spec) (spec_placement_hints spec)
    (spec_surface_placement_gravity spec)
    (spec_aux_rect_placement_gravity spec)
    (spec_width spec) (spec_height spec) (spec_state spec).
Definition set_spec_parent (p : option SurfaceId) (spec : SurfaceSpecification) :=
  mkSpec (spec_application_id spec) (spec_name spec) (Some p)
    (spec_top_left spec) (spec_aux_rect spec) (spec_placement_hints spec)
    (spec_surface_placement_gravity spec)
    (spec_aux_rect_placement_gravity spec)
    (spec_width spec) (spec_height spec) (spec_state spec).
Definition set_spec_size (sz : geom.Size) (spec : SurfaceSpecification) :=
  mkSpec (spec_application_id spec) (spec_name spec) (spec_parent spec)
    (spec_top_left spec) (spec_aux_rect spec) (spec_placement_hints spec)
    (spec_surface_placement_gravity spec)
    (spec_aux_rect_placement_gravity spec)
    (Some (geom.width sz)) (Some (geom.height sz)) (spec_state spec).
Definition set_spec_state (st : MirWindowState) (spec : SurfaceSpecification) :=
  mkSpec (spec_application_id spec) (spec_name spec) (spec_parent spec)
    (spec_top_left spec) (spec_aux_rect spec) (spec_placement_hints spec)
    (spec_surface_placement_gravity spec)
    (spec_aux_rect_placement_gravity spec)
    (spec_width spec) (spec_height spec) (Some st).

(** ** Events delivered to the bridge *)

(** The payload of a client message, [uint32_t const (&data)[5]]. *)
Record client_message_data := mkData {
  data0 : Z; data1 : Z; data2 : Z; data3 : Z; data4 : Z
}.

(** The fields of [xcb_configure_request_event_t] the handler reads. *)
Record xcb_configure_request_event_t := mkConfigureRequest {
  value_mask : Z;
  event_x : Z;
  event_y : Z;
  event_width : Z;
  event_height : Z
}.

(** [mask & bit] used as a condition. *)
Definition mask_has (mask bit : Z) : bool := negb (Z.land mask bit =? 0).

(** The Wayland surface handed to [attach_wl_surface]: its identity, the
    session of its client ([get_session]) and what
    [populate_surface_data] reports. *)
Record WlSurface := mkWlSurface {
  wl_id : WlSurfaceId;
  wl_session : SessionId;
  wl_streams : list WlSurfaceId;
  wl_input_shape : list geom.Rectangle
}.

(** What the X server answers to the property reads; [None] is the error
    path of [read_property]. *)
Record PropertyReplies := mkReplies {
  reply_wm_class : option string;
  reply_wm_name : option string;
  reply_net_wm_name : option string;
  reply_wm_transient_for : option xcb_window_t;
  reply_wm_protocols : option (list xcb_atom_t)
}.

Inductive PropertyHandler :=
  | handle_wm_class
  | handle_wm_name
  | handle_net_wm_name
  | handle_wm_transient_for
  | handle_wm_protocols.

(** ** Target of a [_NET_WM_STATE] action

    [bool nil{false}, *prop_ptr = &nil;] points either at the local dummy
    or at one of the flags of the new window state. *)
Inductive prop_ptr := ptr_nil | ptr_minimized | ptr_maximized | ptr_fullscreen.

Definition load (p : prop_ptr) (nil : bool) (s : WindowState.t) : bool :=
  match p with
  | ptr_nil => nil
  | ptr_minimized => WindowState.minimized s
  | ptr_maximized => WindowState.maximized s
  | ptr_fullscreen => WindowState.fullscreen s
  end.

Definition store (p : prop_ptr) (v : bool) (nil : bool) (s : WindowState.t)
    : bool * WindowState.t :=
  match p with
  | ptr_nil => (v, s)
  | ptr_minimized => (nil, WindowState.set_minimized v s)
  | ptr_maximized => (nil, WindowState.set_maximized v s)
  | ptr_fullscreen => (nil, WindowState.set_fullscreen v s)
  end.

(** ** The member functions of [XWaylandSurface] *)

Section handlers.

(** The rest of the server, as it stands when the handler starts. *)
Context (w : World).

Let conn : XCBConnection := connection w.

(** [inform_client_of_window_state] *)
Definition inform_client_of_window_state (new_window_state : WindowState.t)
    : M unit :=
  this ← get_self;
  if WindowState.eqb new_window_state (state (cached this)) then mret tt
  else
    modify_self (set_cached_state new_window_state) ;;
    let wm_state_value :=
      if WindowState.withdrawn new_window_state then WITHDRAWN
      else if WindowState.minimized new_window_state then ICONIC
      else NORMAL in
    call (set_property XCBType_WM_STATE (window this) (wm_state conn)
            [WmState_value wm_state_value; XCB_WINDOW_NONE]) ;;
    (if WindowState.withdrawn new_window_state then
       call (xcb_delete_property (window this) (net_wm_state conn))
     else
       let net_wm_states :=
         (if WindowState.minimized new_window_state
          then [net_wm_state_hidden conn] else []) ++
         (if WindowState.maximized new_window_state
          then [net_wm_state_maximized_horz conn;
                net_wm_state_maximized_vert conn] else []) ++
         (if WindowState.fullscreen new_window_state
          then [net_wm_state_fullscreen conn] else []) in
       call (set_property XCBType_ATOM (window this) (net_wm_state conn)
               net_wm_states)) ;;
    call flush.

(** [request_scene_surface_state] *)
Definition request_scene_surface_state (new_state : MirWindowState)
    : M unit :=
  this ← get_self;
  match lock_surface w (weak_scene_surface this) with
  | Some (id, scene_surface) =>
      if bool_decide (surface_state scene_surface ≠ new_state) then
        call (modify_surface
                (lock_session w (surface_session scene_surface)) id
                (set_spec_state new_state empty_spec))
      else mret tt
  | None => mret tt
  end.

(** One round of the loop of [net_wm_state_client_message]: the action
    applied to one target property. *)
Definition select_prop_ptr (property : xcb_atom_t) : prop_ptr :=
  if property =? net_wm_state_hidden conn then ptr_minimized
  else if property =? net_wm_state_maximized_horz conn then ptr_maximized
  else if property =? net_wm_state_fullscreen conn then ptr_fullscreen
  else ptr_nil.

Definition apply_action (action : Z) (property : xcb_atom_t)
    (new_window_state : WindowState.t) : WindowState.t :=
  if property =? 0 then new_window_state
  else
    let nil := false in
    let p := select_prop_ptr property in
    match action with
    | 0 => snd (store p false nil new_window_state)
    | 1 => snd (store p true nil new_window_state)
    | 2 => snd (store p (negb (load p nil new_window_state)) nil
                  new_window_state)
    | _ => new_window_state
    end.

(** [net_wm_state_client_message] *)
Definition net_wm_state_client_message (data : client_message_data)
    : M unit :=
  let action := data0 data in
  let properties := [data1 data; data2 data] in
  this ← get_self;
  let new_window_state :=
    fold_left (fun s property => apply_action action property s)
      properties (state (cached this)) in
  inform_client_of_window_state new_window_state ;;
  request_scene_surface_state (WindowState.mir_window_state new_window_state).

(** [wm_change_state_client_message] *)
Definition wm_change_state_client_message (data : client_message_data)
    : M unit :=
  let requested_state := data0 data in
  this ← get_self;
  new_window_state ←
    (if requested_state =? WmState_value NORMAL then
       mret (WindowState.set_minimized false (state (cached this)))
     else if requested_state =? WmState_value ICONIC then
       mret (WindowState.set_minimized true (state (cached this)))
     else
       throw ("WM_CHANGE_STATE client message sent invalid state " +:+
              pretty requested_state));
  inform_client_of_window_state new_window_state ;;
  request_scene_surface_state (WindowState.mir_window_state new_window_state).

(** [scene_surface_state_set] *)
Definition scene_surface_state_set (new_state : MirWindowState) : M unit :=
  this ← get_self;
  let state := WindowState.updated_from (state (cached this)) new_state in
  inform_client_of_window_state state ;;
  if bool_decide (new_state = mir_window_state_minimized) ||
     bool_decide (new_state = mir_window_state_minimized)
  then
    call (configure_window (window this) None None None
            (Some XCB_STACK_MODE_BELOW))
  else mret tt.

(** [configure_request] *)
Definition configure_request (event : xcb_configure_request_event_t)
    : M unit :=
  this ← get_self;
  let mask := value_mask event in
  match lock_surface w (weak_scene_surface this) with
  | Some (id, scene_surface) =>
      let content_offset := surface_content_offset scene_surface in
      let old_position :=
        geom.add (surface_top_left scene_surface) content_offset in
      let new_position :=
        geom.mkPoint
          (if mask_has mask XCB_CONFIG_WINDOW_X
           then event_x event else geom.x old_position)
          (if mask_has mask XCB_CONFIG_WINDOW_Y
           then event_y event else geom.y old_position) in
      let old_size := surface_content_size scene_surface in
      let new_size :=
        geom.mkSize
          (if mask_has mask XCB_CONFIG_WINDOW_WIDTH
           then event_width event else geom.width old_size)
          (if mask_has mask XCB_CONFIG_WINDOW_HEIGHT
           then event_height event else geom.height old_size) in
      let mods := empty_spec in
      let mods :=
        if bool_decide (old_position ≠ new_position) then
          set_position (lock_surface w (surface_parent scene_surface))
            (geom.sub new_position content_offset) mods
        else mods in
      let mods :=
        if bool_decide (old_size ≠ new_size) then set_spec_size new_size mods
        else mods in
      if negb (spec_is_empty mods) then
        call (modify_surface
                (lock_session w (surface_session scene_surface)) id mods)
      else mret tt
  | None =>
      let top_left :=
        geom.mkPoint
          (if mask_has mask XCB_CONFIG_WINDOW_X
           then event_x event else geom.x (cached_top_left (cached this)))
          (if mask_has mask XCB_CONFIG_WINDOW_Y
           then event_y event else geom.y (cached_top_left (cached this))) in
      let size :=
        geom.mkSize
          (if mask_has mask XCB_CONFIG_WINDOW_WIDTH
           then event_width event
           else geom.width (cached_size (cached this)))
          (if mask_has mask XCB_CONFIG_WINDOW_HEIGHT
           then event_height event
           else geom.height (cached_size (cached this))) in
      call (configure_window (window this) (Some top_left) (Some size)
              None None) ;;
      call flush
  end.

(** [pending_spec] hands out a reference to the pending specification,
    creating it first when there is none; [update_pending_spec f] is a
    write [f] through that reference. *)
Definition update_pending_spec
    (f : SurfaceSpecification -> SurfaceSpecification) : M unit :=
  modify_self (fun this =>
    match nullable_pending_spec this with
    | Some spec => set_nullable_pending_spec (Some (f spec)) this
    | None => set_nullable_pending_spec (Some (f empty_spec)) this
    end).

(** [consume_pending_spec] *)
Definition consume_pending_spec : M (option SurfaceSpecification) :=
  this ← get_self;
  match nullable_pending_spec this with
  | Some spec =>
      modify_self (set_nullable_pending_spec None) ;; mret (Some spec)
  | None => mret None
  end.

(** The lambda [get_scene_surface_from] of [is_transient_for]: null when
    the window has no bridge or its bridge has no live scene surface. *)
Definition get_scene_surface_from (xcb_window : xcb_window_t)
    : option (SurfaceId * Surface) :=
  match get_wm_surface (xwm w) xcb_window with
  | Some xwayland_surface =>
      lock_surface w (weak_scene_surface xwayland_surface)
  | None => None
  end.

(** The parent [is_transient_for] resolves. *)
Definition resolve_transient_for (transient_for : xcb_window_t)
    : option (SurfaceId * Surface) :=
  if bool_decide (transient_for ≠ XCB_WINDOW_NONE) then
    match get_scene_surface_from transient_for with
    | Some parent => Some parent
    | None =>
        match get_focused_window (xwm w) with
        | Some focused_window => get_scene_surface_from focused_window
        | None => None
        end
    end
  else None.

(** [is_transient_for] *)
Definition is_transient_for (transient_for : xcb_window_t) : M unit :=
  let parent_scene_surface := resolve_transient_for transient_for in
  this ← get_self;
  update_pending_spec (set_spec_parent (fst <$> parent_scene_surface)) ;;
  update_pending_spec
    (set_position parent_scene_surface (cached_top_left (cached this))).

(** The table [property_handlers] set up by the constructor, in the order
    of its initialiser list. *)
Definition property_handlers : list (xcb_atom_t * PropertyHandler) :=
  [ (XCB_ATOM_WM_CLASS, handle_wm_class);
    (XCB_ATOM_WM_NAME, handle_wm_name);
    (net_wm_name conn, handle_net_wm_name);
    (XCB_ATOM_WM_TRANSIENT_FOR, handle_wm_transient_for);
    (wm_protocols conn, handle_wm_protocols) ].

(** First phase of a handler: the read is issued. *)
Definition issue_read (entry : xcb_atom_t * PropertyHandler) : M unit :=
  this ← get_self;
  call (read_property (window this) (fst entry)).

(** Second phase: the reply is awaited and handed to the handler, or the
    error handler runs (a no-op unless one was given). *)
Definition complete_read (replies : PropertyReplies)
    (entry : xcb_atom_t * PropertyHandler) : M unit :=
  match snd entry with
  | handle_wm_class =>
      match reply_wm_class replies with
      | Some value => update_pending_spec (set_spec_application_id value)
      | None => mret tt
      end
  | handle_wm_name =>
      match reply_wm_name replies with
      | Some value => update_pending_spec (set_spec_name value)
      | None => mret tt
      end
  | handle_net_wm_name =>
      match reply_net_wm_name replies with
      | Some value => update_pending_spec (set_spec_name value)
      | None => mret tt
      end
  | handle_wm_transient_for =>
      match reply_wm_transient_for replies with
      | Some value => is_transient_for value
      | None => is_transient_for XCB_WINDOW_NONE
      end
  | handle_wm_protocols =>
      match reply_wm_protocols replies with
      | Some value => modify_self (set_supported_wm_protocols (list_to_set value))
      | None => modify_self (set_supported_wm_protocols ∅)
      end
  end.

(** The guard of [attach_wl_surface]:
    [surface_observer || weak_session.lock() || weak_scene_surface.lock()] *)
Definition already_attached (this : XWaylandSurface) : bool :=
  bool_decide (is_Some (surface_observer this)) ||
  bool_decide (is_Some (lock_session w (weak_session this))) ||
  bool_decide (is_Some (lock_surface w (weak_scene_surface this))).

(** [attach_wl_surface].  [replies] is what the X server answers to the
    property reads and [surface] the surface the shell creates. *)
Definition attach_wl_surface (wl_surface : WlSurface)
    (replies : PropertyReplies) (surface : SurfaceId * Surface) : M unit :=
  let observer := wl_id wl_surface in
  this ← get_self;
  if already_attached this then
    throw "XWaylandSurface::set_wl_surface() called multiple times"
  else
    let session := wl_session wl_surface in
    modify_self (set_surface_observer (Some observer)) ;;
    modify_self (set_weak_session (Some session)) ;;
    let state := WindowState.set_withdrawn false (state (cached this)) in
    let params :=
      mkParams (wl_streams wl_surface) (wl_input_shape wl_surface)
        (cached_size (cached this)) (cached_top_left (cached this))
        mir_window_type_freestyle (WindowState.mir_window_state state)
        (negb (override_redirect (cached this))) in
    for_each issue_read property_handlers ;;
    for_each (complete_read replies) property_handlers ;;
    spec ← consume_pending_spec;
    call (create_surface session (params spec) observer) ;;
    inform_client_of_window_state state ;;
    call (configure_window (window this)
            (Some (geom.add (surface_top_left (snd surface))
                     (surface_content_offset (snd surface))))
            (Some (surface_content_size (snd surface)))
            None (Some XCB_STACK_MODE_ABOVE)) ;;
    modify_self (set_weak_scene_surface (Some (fst surface))).

End handlers.

(** ** The transition table of the specification

    The table of the Window-State model as the specification words it: for
    each flag a row says whether the flag is set, cleared or left as it
    is; [withdrawn] is cleared by every row. *)

Inductive flag_change := flag_set | flag_clear | flag_unchanged.

Record table_row := mkRow {
  row_minimized : flag_change;
  row_maximized : flag_change;
  row_fullscreen : flag_change
}.

Definition apply_change (c : flag_change) (flag : bool) : bool :=
  match c with
  | flag_set => true
  | flag_clear => false
  | flag_unchanged => flag
  end.

Definition apply_row (r : table_row) (s : WindowState.t) : WindowState.t :=
  WindowState.mk false
    (apply_change (row_minimized r) (WindowState.minimized s))
    (apply_change (row_maximized r) (WindowState.maximized s))
    (apply_change (row_fullscreen r) (WindowState.fullscreen s)).

Definition row_hidden_minimized := mkRow flag_set flag_unchanged flag_unchanged.
Definition row_fullscreen_state := mkRow flag_clear flag_unchanged flag_set.
Definition row_maximized_states := mkRow flag_clear flag_set flag_clear.
Definition row_restored_states := mkRow flag_clear flag_clear flag_clear.

Definition table_rows : list table_row :=
  [row_hidden_minimized; row_fullscreen_state;
   row_maximized_states; row_restored_states].

(** The row the table gives for a native state; the count sentinel of the
    enumeration has none. *)
Definition spec_table (st : MirWindowState) : option table_row :=
  match st with
  | mir_window_state_hidden | mir_window_state_minimized =>
      Some row_hidden_minimized
  | mir_window_state_fullscreen =>
      Some row_fullscreen_state
  | mir_window_state_maximized | mir_window_state_vertmaximized
  | mir_window_state_horizmaximized =>
      Some row_maximized_states
  | mir_window_state_restored | mir_window_state_unknown
  | mir_window_state_attached =>
      Some row_restored_states
  | mir_window_states => None
  end.

(** ** Reading a log *)

(** The number of writes of the ICCCM [WM_STATE] property in a log: one
    per set of property writes pushed to the client. *)
Definition is_wm_state_write (c : Call) : bool :=
  match c with
  | set_property XCBType_WM_STATE _ _ _ => true
  | _ => false
  end.

Definition wm_state_writes (log : list Call) : nat :=
  length (filter (fun c => is_wm_state_write c = true) log).

(** ** A small server, for examples

    A connection with eight distinct atoms, and a freshly constructed
    bridge for window 42: unmapped, created at (10,20) with size 300x200,
    nothing attached. *)
Definition example_connection : XCBConnection :=
  mkConnection 300 301 302 303 304 305 306 307.

Definition example_bridge : XWaylandSurface :=
  mkBridge 42
    (mkCached false (geom.mkSize 300 200) (geom.mkPoint 10 20) ∅
       (WindowState.mk true false false false))
    None None None None.

Definition example_world : World :=
  mkWorld example_connection ∅ ∅ (mkWM ∅ None).

Definition is_configure_window (c : Call) : bool :=
  match c with
  | configure_window _ _ _ _ _ => true
  | _ => false
  end.

(** A configure request that flags the X coordinate only. *)
Definition example_configure_x : xcb_configure_request_event_t :=
  mkConfigureRequest XCB_CONFIG_WINDOW_X 55 0 0 0.

(** Three more windows: window 1 is transient for window 2, whose bridge
    has no scene surface yet; window 3 is focused and its bridge has the
    live scene surface 7. *)
Definition example_parent_surface : Surface :=
  mkSurface (geom.mkPoint 100 50) (geom.mkDisplacement 2 24)
    (geom.mkSize 640 480) None mir_window_state_restored (Some 1%positive).

Definition bridge_of_window (window : xcb_window_t)
    (surface : option SurfaceId) : XWaylandSurface :=
  mkBridge window
    (mkCached false (geom.mkSize 300 200) (geom.mkPoint 110 80) ∅
       (WindowState.mk false false false false))
    None surface None None.

Definition transient_world : World :=
  mkWorld example_connection
    {[ 7%positive := example_parent_surface ]}
    {[ 1%positive ]}
    (mkWM {[ 1 := bridge_of_window 1 None;
             2 := bridge_of_window 2 None;
             3 := bridge_of_window 3 (Some 7%positive) ]}
       (Some 3)).

(** ** A frame condition on handlers

    [keeps_observer c]: [c] returns, whatever the machine it starts from,
    and leaves the bridge's [surface_observer] as it found it. *)
Definition keeps_observer {A} (c : M A) : Prop :=
  ∀ m, ∃ a m', c m = (Returned a, m') ∧
               surface_observer (self m') = surface_observer (self m).

(** A Wayland surface and the replies of a client that set a class and a
    name, for examples of [attach_wl_surface]. *)
Definition example_wl_surface : WlSurface :=
  mkWlSurface 9%positive 1%positive [9%positive] [].

Definition example_replies : PropertyReplies :=
  mkReplies (Some "xterm") (Some "shell") None None None.

Definition example_created_surface : SurfaceId * Surface :=
  (7%positive, example_parent_surface).

(** ** The handlers that only use the calls above *)

(** The fields of [xcb_configure_notify_event_t] the handler reads. *)
Record xcb_configure_notify_event_t := mkConfigureNotify {
  notify_override_redirect : bool;
  notify_x : Z;
  notify_y : Z;
  notify_width : Z;
  notify_height : Z
}.

(** What the scene graph reports of a surface besides [Surface]: its
    application id and its name. *)
Record SurfaceLabels := mkLabels {
  surface_application_id : string;
  surface_name : string
}.

Definition set_cached_geometry (o : bool) (tl : geom.Point) (sz : geom.Size)
    (b : XWaylandSurface) : XWaylandSurface :=
  set_cached
    (mkCached o sz tl (supported_wm_protocols (cached b)) (state (cached b))) b.

(** [Optional::consume] on three attributes of a specification. *)
Definition consume_spec_application_id (spec : SurfaceSpecification) :=
  mkSpec None (spec_name spec) (spec_parent spec)
    (spec_top_left spec) (spec_aux_rect spec) (spec_placement_hints spec)
    (spec_surface_placement_gravity spec)
    (spec_aux_rect_placement_gravity spec)
    (spec_width spec) (spec_height spec) (spec_state spec).
Definition consume_spec_name (spec : SurfaceSpecification) :=
  mkSpec (spec_application_id spec) None (spec_parent spec)
    (spec_top_left spec) (spec_aux_rect spec) (spec_placement_hints spec)
    (spec_surface_placement_gravity spec)
    (spec_aux_rect_placement_gravity spec)
    (spec_width spec) (spec_height spec) (spec_state spec).
Definition consume_spec_parent (spec : SurfaceSpecification) :=
  mkSpec (spec_application_id spec) (spec_name spec) None
    (spec_top_left spec) (spec_aux_rect spec) (spec_placement_hints spec)
    (spec_surface_placement_gravity spec)
    (spec_aux_rect_placement_gravity spec)
    (spec_width spec) (spec_height spec) (spec_state spec).

(** [std::map::find] on the table of handlers. *)
Fixpoint find_handler (property : xcb_atom_t)
    (table : list (xcb_atom_t * PropertyHandler))
    : option (xcb_atom_t * PropertyHandler) :=
  match table with
  | [] => None
  | entry :: rest =>
      if fst entry =? property then Some entry else find_handler property rest
  end.

Section more_handlers.

Context (w : World).

(** [configure_notify] *)
Definition configure_notify (event : xcb_configure_notify_event_t) : M unit :=
  modify_self
    (set_cached_geometry (notify_override_redirect event)
       (geom.mkPoint (notify_x event) (notify_y event))
       (geom.mkSize (notify_width event) (notify_height event))).

(** [scene_surface_resized] *)
Definition scene_surface_resized (new_size : geom.Size) : M unit :=
  this ← get_self;
  call (configure_window (window this) None (Some new_size) None None) ;;
  call flush.

(** [scene_surface_moved_to] *)
Definition scene_surface_moved_to (new_top_left : geom.Point) : M unit :=
  this ← get_self;
  let content_offset :=
    match lock_surface w (weak_scene_surface this) with
    | Some (_, scene_surface) => surface_content_offset scene_surface
    | None => geom.mkDisplacement 0 0
    end in
  call (configure_window (window this)
          (Some (geom.add new_top_left content_offset)) None None None) ;;
  call flush.

(** [scene_surface], the accessor. *)
Definition scene_surface (this : XWaylandSurface) : option SurfaceId :=
  fst <$> lock_surface w (weak_scene_surface this).

(** The three comparisons of [property_notify] that drop from the consumed
    specification what the scene surface already has. *)
Definition drop_unchanged (labels : SurfaceLabels) (scene_surface : Surface)
    (spec : SurfaceSpecification) : SurfaceSpecification :=
  let spec :=
    match spec_application_id spec with
    | Some value =>
        if bool_decide (value = surface_application_id labels)
        then consume_spec_application_id spec else spec
    | None => spec
    end in
  let spec :=
    match spec_name spec with
    | Some value =>
        if bool_decide (value = surface_name labels)
        then consume_spec_name spec else spec
    | None => spec
    end in
  match spec_parent spec with
  | Some value =>
      if bool_decide (fst <$> lock_surface w value =
                      fst <$> lock_surface w (surface_parent scene_surface))
      then consume_spec_parent spec else spec
  | None => spec
  end.

(** [property_notify].  [replies] is what the X server answers to the
    read and [labels] what the scene surface reports as its application
    id and name. *)
Definition property_notify (replies : PropertyReplies)
    (labels : SurfaceLabels) (property : xcb_atom_t) : M unit :=
  match find_handler property (property_handlers w) with
  | Some handler =>
      issue_read handler ;;
      complete_read w replies handler ;;
      this ← get_self;
      let scene_surface := lock_surface w (weak_scene_surface this) in
      spec ← consume_pending_spec;
      match spec, scene_surface with
      | Some spec, Some (id, scene_surface) =>
          let spec := drop_unchanged labels scene_surface spec in
          if negb (spec_is_empty spec) then
            call (modify_surface
                    (lock_session w (surface_session scene_surface)) id spec)
          else mret tt
      | _, _ => mret tt
      end
  | None => mret tt
  end.

End more_handlers.

(** ** The remaining handlers

    [map], [close], [take_focus], [move_resize] and two of the compositor
    callbacks make calls the log above has no entry for.  Their log is
    over a wider type of calls, in which a call of the first kind is
    embedded as it is. *)

Inductive MirResizeEdge :=
  | mir_resize_edge_northwest
  | mir_resize_edge_north
  | mir_resize_edge_northeast
  | mir_resize_edge_east
  | mir_resize_edge_southeast
  | mir_resize_edge_south
  | mir_resize_edge_southwest
  | mir_resize_edge_west.

#[global] Instance MirResizeEdge_eq_dec : EqDecision MirResizeEdge.
Proof. solve_decision. Defined.

(** [wm_resize_edge_to_mir_resize_edge], on the numeric value of the
    [NetWmMoveresize] it is given. *)
Definition wm_resize_edge_to_mir_resize_edge (wm_resize_edge : Z)
    : option MirResizeEdge :=
  match wm_resize_edge with
  | 0 => Some mir_resize_edge_northwest
  | 1 => Some mir_resize_edge_north
  | 2 => Some mir_resize_edge_northeast
  | 3 => Some mir_resize_edge_east
  | 4 => Some mir_resize_edge_southeast
  | 5 => Some mir_resize_edge_south
  | 6 => Some mir_resize_edge_southwest
  | 7 => Some mir_resize_edge_west
  | _ => None
  end.

Definition NetWmMoveresize_MOVE : Z := 8.

(** xcb constants. *)
Definition XCB_CW_EVENT_MASK : Z := 2048.
Definition XCB_EVENT_MASK_NO_EVENT : Z := 0.
Definition XCB_EVENT_MASK_SUBSTRUCTURE_REDIRECT : Z := 1048576.
Definition XCB_EVENT_MASK_FOCUS_CHANGE : Z := 2097152.
Definition XCB_EVENT_MASK_PROPERTY_CHANGE : Z := 4194304.
Definition XCB_TIME_CURRENT_TIME : Z := 0.
Definition XCB_CURRENT_TIME : Z := 0.
Definition XCB_INPUT_FOCUS_POINTER_ROOT : Z := 1.

(** The atoms of the connection these handlers use besides those of
    [XCBConnection]. *)
Record ProtocolAtoms := mkAtoms {
  net_wm_desktop : xcb_atom_t;
  wm_take_focus : xcb_atom_t;
  wm_delete_window : xcb_atom_t
}.

Inductive ServerCall :=
  | bridge_call (c : Call)
  | set_property_CARDINAL32 (window : xcb_window_t) (property : xcb_atom_t)
      (value : Z)
  | delete_property (window : xcb_window_t) (property : xcb_atom_t)
  | xcb_change_window_attributes (window : xcb_window_t) (value_mask : Z)
      (value : Z)
  | xcb_map_window (window : xcb_window_t)
  | xcb_unmap_window (window : xcb_window_t)
  | send_client_message_WM_PROTOCOLS (window : xcb_window_t) (event_mask : Z)
      (data : list Z)
  | xcb_set_input_focus (revert_to : Z) (focus : xcb_window_t) (time : Z)
  | xcb_kill_client (window : xcb_window_t)
  | xwm_set_focus (window : xcb_window_t) (has_focus : bool)
  | remove_observer (surface : SurfaceId) (observer : WlSurfaceId)
  | destroy_surface (session : option SessionId) (surface : SurfaceId)
  | request_move (session : option SessionId) (surface : SurfaceId)
      (timestamp : Z)
  | request_resize (session : option SessionId) (surface : SurfaceId)
      (timestamp : Z) (edge : MirResizeEdge)
  | log_warning (message : string).

Record Server := mkServer {
  bridge : XWaylandSurface;
  server_calls : list ServerCall
}.

Definition Handler (A : Type) : Type := Server -> Outcome A * Server.

#[global] Instance Handler_ret : MRet Handler := fun A a m => (Returned a, m).
#[global] Instance Handler_bind : MBind Handler := fun A B f c m =>
  match c m with
  | (Returned a, m') => f a m'
  | (Thrown e, m') => (Thrown e, m')
  end.

Definition get_bridge : Handler XWaylandSurface :=
  fun m => (Returned (bridge m), m).
Definition modify_bridge (f : XWaylandSurface -> XWaylandSurface)
    : Handler unit :=
  fun m => (Returned tt, mkServer (f (bridge m)) (server_calls m)).
Definition server_call (c : ServerCall) : Handler unit :=
  fun m => (Returned tt, mkServer (bridge m) (server_calls m ++ [c])).
Definition fatal {A} (what : string) : Handler A := fun m => (Thrown what, m).

(** A handler of the first kind run inside one of the second kind: its
    calls are appended, in order, to the log. *)
Definition lift {A} (c : M A) : Handler A := fun m =>
  match c (mkMachine (bridge m) []) with
  | (r, m') =>
      (r, mkServer (self m') (server_calls m ++ (bridge_call <$> calls m')))
  end.

Definition serve {A} (c : Handler A) (b : XWaylandSurface)
    : Outcome A * Server :=
  c (mkServer b []).

(** The fields of [xcb_create_notify_event_t] the constructor reads. *)
Record xcb_create_notify_event_t := mkCreateNotify {
  create_window : xcb_window_t;
  create_override_redirect : bool;
  create_x : Z;
  create_y : Z;
  create_width : Z;
  create_height : Z
}.

(** The calls of a log that go to the shell. *)
Definition is_shell_call (c : ServerCall) : bool :=
  match c with
  | bridge_call (modify_surface _ _ _) | bridge_call (create_surface _ _ _)
  | destroy_surface _ _ | request_move _ _ _ | request_resize _ _ _ _ => true
  | _ => false
  end.

Section server_handlers.

Context (w : World) (atoms : ProtocolAtoms).

(** The constructor.  The default member initialisers of [WindowState]
    are part of the class declaration, outside this file: the state a new
    bridge starts with is the parameter [initial]. *)
Definition XWaylandSurface_new (initial : WindowState.t)
    (event : xcb_create_notify_event_t)
    : XWaylandSurface * list ServerCall :=
  (mkBridge (create_window event)
     (mkCached (create_override_redirect event)
        (geom.mkSize (create_width event) (create_height event))
        (geom.mkPoint (create_x event) (create_y event))
        ∅ initial)
     None None None None,
   [xcb_change_window_attributes (create_window event) XCB_CW_EVENT_MASK
      (Z.lor XCB_EVENT_MASK_PROPERTY_CHANGE XCB_EVENT_MASK_FOCUS_CHANGE)]).

(** [map] *)
Definition map : Handler unit :=
  this ← get_bridge;
  let state := state (cached this) in
  let workspace := 1 in
  server_call (set_property_CARDINAL32 (window this) (net_wm_desktop atoms)
                 workspace) ;;
  let state := WindowState.set_withdrawn false state in
  lift (inform_client_of_window_state w state) ;;
  lift (request_scene_surface_state w (WindowState.mir_window_state state)) ;;
  server_call (xcb_map_window (window this)) ;;
  server_call (bridge_call flush).

(** [close].  [other_owners] is the number of references to the observer
    held outside the bridge once the scene surface has let go of it; the
    observer outlives the bridge's reference exactly when there is one.
    [fatal_error] does not return. *)
Definition close (other_owners : nat) : Handler unit :=
  this ← get_bridge;
  let state := state (cached this) in
  let scene_surface := lock_surface w (weak_scene_surface this) in
  modify_bridge (set_weak_scene_surface None) ;;
  modify_bridge (set_weak_session None) ;;
  let observer := surface_observer this in
  modify_bridge (set_surface_observer None) ;;
  server_call (delete_property (window this) (net_wm_desktop atoms)) ;;
  let state := WindowState.set_withdrawn true state in
  lift (inform_client_of_window_state w state) ;;
  server_call (xcb_unmap_window (window this)) ;;
  server_call (bridge_call flush) ;;
  match scene_surface, observer with
  | Some (id, _), Some o => server_call (remove_observer id o)
  | _, _ => mret tt
  end ;;
  match scene_surface with
  | Some (id, s) =>
      server_call (destroy_surface (lock_session w (surface_session s)) id)
  | None => mret tt
  end ;;
  match observer with
  | Some o =>
      if bool_decide (other_owners ≠ 0%nat) then
        fatal ("surface observer should have been deleted, but was not (use count "
               +:+ pretty (S other_owners) +:+ ")")
      else mret tt
  | None => mret tt
  end.

(** [take_focus] *)
Definition take_focus : Handler unit :=
  this ← get_bridge;
  if override_redirect (cached this) then mret tt
  else
    let supports_take_focus :=
      bool_decide (wm_take_focus atoms ∈ supported_wm_protocols (cached this)) in
    (if supports_take_focus then
       server_call
         (send_client_message_WM_PROTOCOLS (window this)
            XCB_EVENT_MASK_SUBSTRUCTURE_REDIRECT
            [wm_take_focus atoms; XCB_TIME_CURRENT_TIME])
     else mret tt) ;;
    server_call (xcb_set_input_focus XCB_INPUT_FOCUS_POINTER_ROOT
                   (window this) XCB_CURRENT_TIME) ;;
    server_call (bridge_call flush).

(** [latest_input_timestamp]; [latest_timestamp] is what an observer
    answers. *)
Definition latest_input_timestamp (latest_timestamp : WlSurfaceId -> Z)
    : Handler Z :=
  this ← get_bridge;
  match surface_observer this with
  | Some o => mret (latest_timestamp o)
  | None =>
      server_call
        (log_warning "Can not get timestamp because surface_observer is null") ;;
      mret 0
  end.

(** [move_resize] *)
Definition move_resize (latest_timestamp : WlSurfaceId -> Z) (detail : Z)
    : Handler unit :=
  this ← get_bridge;
  let scene_surface := lock_surface w (weak_scene_surface this) in
  timestamp ← latest_input_timestamp latest_timestamp;
  let action := detail in
  if action =? NetWmMoveresize_MOVE then
    match scene_surface with
    | Some (id, s) =>
        server_call (request_move (lock_session w (surface_session s)) id
                       timestamp)
    | None => mret tt
    end
  else
    match wm_resize_edge_to_mir_resize_edge action with
    | Some edge =>
        match scene_surface with
        | Some (id, s) =>
            server_call (request_resize (lock_session w (surface_session s))
                           id timestamp edge)
        | None => mret tt
        end
    | None =>
        server_call
          (log_warning
             ("XWaylandSurface::move_resize() called with unknown detail "
              +:+ pretty detail))
    end.

(** [scene_surface_focus_set] *)
Definition scene_surface_focus_set (has_focus : bool) : Handler unit :=
  this ← get_bridge;
  server_call (xwm_set_focus (window this) has_focus) ;;
  server_call (bridge_call
                 (configure_window (window this) None None None
                    (Some XCB_STACK_MODE_ABOVE))).

(** [scene_surface_close_requested] *)
Definition scene_surface_close_requested : Handler unit :=
  this ← get_bridge;
  let delete_window :=
    bool_decide (wm_delete_window atoms ∈ supported_wm_protocols (cached this)) in
  (if delete_window then
     server_call
       (send_client_message_WM_PROTOCOLS (window this) XCB_EVENT_MASK_NO_EVENT
          [wm_delete_window atoms; XCB_TIME_CURRENT_TIME])
   else
     server_call (xcb_kill_client (window this))) ;;
  server_call (bridge_call flush).

(** [wl_surface_destroyed] and the destructor both come down to [close]. *)
Definition wl_surface_destroyed (other_owners : nat) : Handler unit :=
  close other_owners.

End server_handlers.

(** The calls of the first kind in a wider log. *)
Definition bridge_calls (log : list ServerCall) : list Call :=
  omap (fun c => match c with bridge_call c' => Some c' | _ => None end) log.

(** The four states [mir_window_state] distinguishes. *)
Definition reported_states : list MirWindowState :=
  [mir_window_state_restored; mir_window_state_minimized;
   mir_window_state_maximized; mir_window_state_fullscreen].

(** [preserves proj c]: whether [c] returns or throws, the part [proj] of
    the bridge is afterwards what it was before. *)
Definition preserves {A X} (proj : XWaylandSurface -> X) (c : M A) : Prop :=
  ∀ m, proj (self (snd (c m))) = proj (self m).

(** The identity of a bridge and its three references. *)
Definition attachment (b : XWaylandSurface)
    : xcb_window_t * option SurfaceId * option SessionId * option WlSurfaceId :=
  (window b, weak_scene_surface b, weak_session b, surface_observer b).

(** [only_calls P c]: every call [c] appends to the log satisfies [P]. *)
Definition only_calls {A} (P : Call -> Prop) (c : M A) : Prop :=
  ∀ m, ∃ added, calls (snd (c m)) = calls m ++ added ∧ Forall P added.

Definition not_to_shell (c : Call) : Prop := is_shell_call (bridge_call c) = false.

(** The calls of a log of the first kind that go to the shell. *)
Definition shell_calls (log : list Call) : list Call :=
  filter (fun c => is_shell_call (bridge_call c) = true) log.

(** The calls [inform_client_of_window_state] makes for a bridge and a
    window state. *)
Definition pushed_calls (w : World) (b : XWaylandSurface) (s : WindowState.t)
    : list Call :=
  calls (snd (run (inform_client_of_window_state w s) b)).

(** The bridge with its three references cleared. *)
Definition detached (b : XWaylandSurface) : XWaylandSurface :=
  set_surface_observer None (set_weak_session None (set_weak_scene_surface None b)).

Definition is_remove_observer (c : ServerCall) : bool :=
  match c with
  | remove_observer _ _ => true
  | _ => false
  end.

(** Three more atoms, and a bridge that holds an observer. *)
Definition example_atoms : ProtocolAtoms := mkAtoms 308 309 310.

Definition observed_bridge : XWaylandSurface :=
  set_surface_observer (Some 9%positive) example_bridge.

(** * Properties *)

(** ** The Window-State model *)

Lemma WindowState_eqb_eq (a b : WindowState.t) :
  WindowState.eqb a b = true <-> a = b.
Proof.
  destruct a as [w1 m1 x1 f1], b as [w2 m2 x2 f2]; unfold WindowState.eqb; simpl.
  split.
  - intros H.
    repeat (apply andb_prop in H; destruct H as [H ?]).
    repeat match goal with
           | E : Bool.eqb _ _ = true |- _ => apply Bool.eqb_prop in E
           end.
    congruence.
  - intros [= -> -> -> ->]. by rewrite !Bool.eqb_reflx.
Qed.

Lemma WindowState_eqb_refl (a : WindowState.t) : WindowState.eqb a a = true.
Proof. by apply WindowState_eqb_eq. Qed.

Lemma WindowState_eqb_neq (a b : WindowState.t) :
  WindowState.eqb a b = false <-> a ≠ b.
Proof.
  rewrite <- WindowState_eqb_eq. destruct (WindowState.eqb a b); split; congruence.
Qed.

(** C1, as the claim words it, fails at the enumeration's count sentinel:
    [updated_from] handles [mir_window_states] in a case of its own, which
    keeps the three flags, and none of the four rows of the table describes
    that transition. *)
Lemma updated_from_sentinel_not_in_table :
  ¬ ∃ r, r ∈ table_rows ∧
         ∀ s, WindowState.updated_from s mir_window_states = apply_row r s.
Proof.
  intros (r & Hr & H).
  pose proof (H (WindowState.mk true false false false)) as H0.
  pose proof (H (WindowState.mk true true true true)) as H1.
  unfold table_rows in Hr.
  repeat (apply elem_of_cons in Hr; destruct Hr as [-> | Hr]);
    try discriminate H0; try discriminate H1.
  by apply elem_of_nil in Hr.
Qed.

(** C1 (amended): [updated_from] is a total function of the receiver and
    the native state; it clears [withdrawn] and, for each of the nine
    window states, changes the flags as the row of the table says
    (hidden/minimized: minimized set; fullscreen: minimized cleared,
    fullscreen set; the three maximized states: minimized cleared,
    maximized set, fullscreen cleared; restored/unknown/attached: all three
    cleared); for the count sentinel, the only value without a row, the
    three flags are kept.  [operator==] holds exactly of values that agree
    on all four flags. *)
Theorem updated_from_follows_table (s : WindowState.t) (st : MirWindowState) :
  WindowState.updated_from s st =
    match spec_table st with
    | Some r => apply_row r s
    | None => WindowState.set_withdrawn false s
    end
  ∧ (spec_table st = None <-> st = mir_window_states)
  ∧ (∀ s' : WindowState.t,
       WindowState.eqb s s' = true <->
       WindowState.withdrawn s = WindowState.withdrawn s' ∧
       WindowState.minimized s = WindowState.minimized s' ∧
       WindowState.maximized s = WindowState.maximized s' ∧
       WindowState.fullscreen s = WindowState.fullscreen s').
Proof.
  split; [| split].
  - destruct s, st; reflexivity.
  - destruct st; simpl; split; congruence.
  - intros s'. rewrite WindowState_eqb_eq.
    destruct s, s'; simpl. split.
    + by intros [= -> -> -> ->].
    + intros (-> & -> & -> & ->). reflexivity.
Qed.

(** C2: round trip.  For every window state [s], [updated_from] applied
    to [s] with the native state [s.mir_window_state()] gives back the
    minimized, maximized and fullscreen flags of [s], with [withdrawn]
    false. *)
Theorem updated_from_mir_window_state_round_trip (s : WindowState.t) :
  let r := WindowState.updated_from s (WindowState.mir_window_state s) in
  WindowState.minimized r = WindowState.minimized s ∧
  WindowState.maximized r = WindowState.maximized s ∧
  WindowState.fullscreen r = WindowState.fullscreen s ∧
  WindowState.withdrawn r = false.
Proof.
  destruct s as [wd [] [] []]; cbn; auto.
Qed.

(** ** Pushing the window state to the client *)

Ltac unfold_m :=
  unfold run, mbind, mret, M_bind, M_ret, get_self, modify_self, call, throw.

(** What one call of [inform_client_of_window_state] does. *)
Lemma inform_client_equal (w : World) (s : WindowState.t) (m : Machine) :
  s = state (cached (self m)) ->
  inform_client_of_window_state w s m = (Returned tt, m).
Proof.
  intros ->. unfold inform_client_of_window_state. unfold_m.
  by rewrite WindowState_eqb_refl.
Qed.

Lemma inform_client_differs (w : World) (s : WindowState.t) (m : Machine) :
  s ≠ state (cached (self m)) ->
  inform_client_of_window_state w s m =
    (Returned tt,
     mkMachine (set_cached_state s (self m))
       (calls m ++
        [set_property XCBType_WM_STATE (window (self m)) (wm_state (connection w))
           [if WindowState.withdrawn s then 0
            else if WindowState.minimized s then 3 else 1; 0];
         if WindowState.withdrawn s then
           xcb_delete_property (window (self m)) (net_wm_state (connection w))
         else
           set_property XCBType_ATOM (window (self m))
             (net_wm_state (connection w))
             ((if WindowState.minimized s
               then [net_wm_state_hidden (connection w)] else []) ++
              (if WindowState.maximized s
               then [net_wm_state_maximized_horz (connection w);
                     net_wm_state_maximized_vert (connection w)] else []) ++
              (if WindowState.fullscreen s
               then [net_wm_state_fullscreen (connection w)] else []));
         flush])).
Proof.
  intros Hne. apply WindowState_eqb_neq in Hne.
  unfold inform_client_of_window_state. unfold_m. rewrite Hne.
  destruct m as [b log]; cbn.
  destruct (WindowState.withdrawn s), (WindowState.minimized s); cbn;
    by rewrite <- !app_assoc.
Qed.

(** After a call the cached state is the one that was pushed. *)
Lemma inform_client_caches (w : World) (s : WindowState.t) (m : Machine) :
  fst (inform_client_of_window_state w s m) = Returned tt ∧
  state (cached (self (snd (inform_client_of_window_state w s m)))) = s.
Proof.
  destruct (decide (s = state (cached (self m)))) as [E | N].
  - by rewrite inform_client_equal.
  - by rewrite inform_client_differs.
Qed.

(** C3, as the claim words it, fails: pushed twice, a value equal to the
    state the bridge has cached produces no property write at all, not
    one set of writes. *)
Lemma inform_client_twice_cached_value_writes_nothing :
  let s := state (cached example_bridge) in
  let m := snd (run (inform_client_of_window_state example_world s ;;
                     inform_client_of_window_state example_world s)
                  example_bridge) in
  calls m = [] ∧ wm_state_writes (calls m) ≠ 1%nat.
Proof. vm_compute. split; [reflexivity | discriminate]. Qed.

(** C3 (amended): [inform_client_of_window_state] is idempotent by
    equality.  Called with a value equal to the cached state it makes no
    call and changes nothing.  Called with another value it caches the
    value, writes [WM_STATE] (withdrawn, iconic or normal, and no icon
    window), then deletes [_NET_WM_STATE] when the value is withdrawn and
    otherwise writes the list of its hidden, maximized (horizontal and
    vertical) and fullscreen atoms, then flushes.  Calling it twice in
    succession with the same value does what one call does: one set of
    property writes when the value differs from the state cached before
    the first call, none when it equals it. *)
Theorem inform_client_of_window_state_idempotent
    (w : World) (b : XWaylandSurface) (s : WindowState.t) :
  let conn := connection w in
  let once := run (inform_client_of_window_state w s) b in
  let twice := run (inform_client_of_window_state w s ;;
                    inform_client_of_window_state w s) b in
  once =
    (if WindowState.eqb s (state (cached b)) then
       (Returned tt, mkMachine b [])
     else
       (Returned tt,
        mkMachine (set_cached_state s b)
          [set_property XCBType_WM_STATE (window b) (wm_state conn)
             [if WindowState.withdrawn s then WmState_value WITHDRAWN
              else if WindowState.minimized s then WmState_value ICONIC
              else WmState_value NORMAL;
              XCB_WINDOW_NONE];
           if WindowState.withdrawn s then
             xcb_delete_property (window b) (net_wm_state conn)
           else
             set_property XCBType_ATOM (window b) (net_wm_state conn)
               ((if WindowState.minimized s
                 then [net_wm_state_hidden conn] else []) ++
                (if WindowState.maximized s
                 then [net_wm_state_maximized_horz conn;
                       net_wm_state_maximized_vert conn] else []) ++
                (if WindowState.fullscreen s
                 then [net_wm_state_fullscreen conn] else []));
           flush]))
  ∧ twice = once
  ∧ wm_state_writes (calls (snd twice)) =
      (if WindowState.eqb s (state (cached b)) then 0%nat else 1%nat).
Proof.
  intros conn once twice.
  assert (Htwice : twice = once).
  { subst once twice. unfold run.
    change ((inform_client_of_window_state w s ;;
             inform_client_of_window_state w s) (mkMachine b []))
      with (match inform_client_of_window_state w s (mkMachine b []) with
            | (Returned _, m') => inform_client_of_window_state w s m'
            | (Thrown e, m') => (Thrown e, m')
            end).
    pose proof (inform_client_caches w s (mkMachine b [])) as [Hr Hc].
    destruct (inform_client_of_window_state w s (mkMachine b [])) as [[[]|e] m'];
      simpl in *; [| discriminate].
    by rewrite inform_client_equal. }
  rewrite Htwice. subst once. unfold run.
  destruct (WindowState.eqb s (state (cached b))) eqn:E.
  - apply WindowState_eqb_eq in E.
    rewrite inform_client_equal by done. done.
  - apply WindowState_eqb_neq in E.
    rewrite inform_client_differs by done. cbn [self calls app].
    split; [| split]; [| done |].
    + destruct (WindowState.withdrawn s), (WindowState.minimized s); reflexivity.
    + by destruct (WindowState.withdrawn s).
Qed.

(** ** Sequencing *)

Lemma bind_returned {A B} (c : M A) (k : A -> M B) (m m' : Machine) (a : A) :
  c m = (Returned a, m') -> (c ≫= k) m = k a m'.
Proof. intros E. unfold mbind, M_bind. by rewrite E. Qed.

Lemma bind_thrown {A B} (c : M A) (k : A -> M B) (m m' : Machine) (e : string) :
  c m = (Thrown e, m') -> (c ≫= k) m = (Thrown e, m').
Proof. intros E. unfold mbind, M_bind. by rewrite E. Qed.

(** ** Frame lemmas for the two pushes *)

Lemma set_cached_state_id (b : XWaylandSurface) :
  set_cached_state (state (cached b)) b = b.
Proof. by destruct b as [? [] ? ? ? ?]. Qed.

Lemma set_cached_state_twice (s s' : WindowState.t) (b : XWaylandSurface) :
  set_cached_state s (set_cached_state s' b) = set_cached_state s b.
Proof. reflexivity. Qed.

Lemma inform_client_self (w : World) (s : WindowState.t) (m : Machine) :
  fst (inform_client_of_window_state w s m) = Returned tt ∧
  self (snd (inform_client_of_window_state w s m)) = set_cached_state s (self m).
Proof.
  destruct (decide (s = state (cached (self m)))) as [E | N].
  - rewrite inform_client_equal by done. subst s.
    by rewrite set_cached_state_id.
  - by rewrite inform_client_differs.
Qed.

Lemma inform_client_no_configure (w : World) (s : WindowState.t) (m : Machine) :
  Forall (fun c => is_configure_window c = false) (calls m) ->
  Forall (fun c => is_configure_window c = false)
    (calls (snd (inform_client_of_window_state w s m))).
Proof.
  intros Hm.
  destruct (decide (s = state (cached (self m)))) as [E | N].
  - by rewrite inform_client_equal.
  - rewrite inform_client_differs by done. cbn [snd calls].
    apply Forall_app. split; [done |].
    repeat constructor. by destruct (WindowState.withdrawn s).
Qed.

Lemma request_scene_surface_state_self
    (w : World) (st : MirWindowState) (m : Machine) :
  fst (request_scene_surface_state w st m) = Returned tt ∧
  self (snd (request_scene_surface_state w st m)) = self m.
Proof.
  unfold request_scene_surface_state. unfold_m.
  destruct (lock_surface w (weak_scene_surface (self m))) as [[id sf] |]; [| done].
  by destruct (bool_decide (surface_state sf ≠ st)).
Qed.

(** Both pushes, one after the other, as the client-message handlers end. *)
Lemma push_both_self (w : World) (s : WindowState.t) (m : Machine) :
  let r := (inform_client_of_window_state w s ;;
            request_scene_surface_state w (WindowState.mir_window_state s)) m in
  fst r = Returned tt ∧ self (snd r) = set_cached_state s (self m).
Proof.
  cbn zeta.
  pose proof (inform_client_self w s m) as [Hr Hs].
  destruct (inform_client_of_window_state w s m) as [[[] | e] m1] eqn:E;
    simpl in Hr, Hs; [| discriminate].
  rewrite (bind_returned _ _ _ _ _ E).
  pose proof (request_scene_surface_state_self w
                (WindowState.mir_window_state s) m1) as [Hr' Hs'].
  split; [done | congruence].
Qed.

(** ** WM_CHANGE_STATE *)

(** C4: a [WM_CHANGE_STATE] message whose requested state is neither
    NORMAL (1) nor ICONIC (3) makes the handler throw, with the bridge's
    fields as they were and no call made on the connection or the shell;
    NORMAL clears minimized and ICONIC sets it, the rest of the bridge
    being kept. *)
Theorem wm_change_state_client_message_cases
    (w : World) (b : XWaylandSurface) (d : client_message_data) :
  let r := run (wm_change_state_client_message w d) b in
  match data0 d with
  | 1 =>
      fst r = Returned tt ∧
      self (snd r) =
        set_cached_state (WindowState.set_minimized false (state (cached b))) b
  | 3 =>
      fst r = Returned tt ∧
      self (snd r) =
        set_cached_state (WindowState.set_minimized true (state (cached b))) b
  | _ =>
      r = (Thrown ("WM_CHANGE_STATE client message sent invalid state " +:+
                   pretty (data0 d)),
           mkMachine b [])
  end.
Proof.
  cbn zeta. unfold wm_change_state_client_message, run.
  unfold mbind at 1, M_bind at 1, get_self. cbn [self].
  destruct (data0 d) as [| [[q | q |] | [q | q |] |] | q];
    try reflexivity.
  - unfold mbind at 1, M_bind at 1. cbn -[inform_client_of_window_state request_scene_surface_state].
    apply (push_both_self w _ (mkMachine b [])).
  - unfold mbind at 1, M_bind at 1. cbn -[inform_client_of_window_state request_scene_surface_state].
    apply (push_both_self w _ (mkMachine b [])).
Qed.

(** ** _NET_WM_STATE *)

(** The flag a target property stands for: none when the slot is zero or
    the atom is not one of the three the handler knows. *)
Lemma apply_action_target (w : World) (action p : Z) (s : WindowState.t) :
  apply_action w action p s =
    let target := if p =? 0 then ptr_nil else select_prop_ptr w p in
    match action with
    | 0 => snd (store target false false s)
    | 1 => snd (store target true false s)
    | 2 => snd (store target (negb (load target false s)) false s)
    | _ => s
    end.
Proof.
  unfold apply_action. destruct (p =? 0); [| reflexivity].
  cbn. by destruct action as [| [[] | [] |] |].
Qed.

Lemma select_prop_ptr_nil (w : World) (p : xcb_atom_t) :
  p ≠ net_wm_state_hidden (connection w) ->
  p ≠ net_wm_state_maximized_horz (connection w) ->
  p ≠ net_wm_state_fullscreen (connection w) ->
  select_prop_ptr w p = ptr_nil.
Proof.
  intros H1 H2 H3. unfold select_prop_ptr.
  by rewrite !(proj2 (Z.eqb_neq _ _)).
Qed.

Lemma apply_action_nil (w : World) (action p : Z) (s : WindowState.t) :
  (if p =? 0 then ptr_nil else select_prop_ptr w p) = ptr_nil ->
  apply_action w action p s = s.
Proof.
  intros H. rewrite apply_action_target, H. cbn.
  by destruct action as [| [[] | [] |] |].
Qed.

Lemma toggle_twice (w : World) (p1 p2 : Z) (s : WindowState.t) :
  let toggle s := apply_action w 2 p2 (apply_action w 2 p1 s) in
  toggle (toggle s) = s.
Proof.
  cbv beta zeta. rewrite !apply_action_target. cbv beta zeta.
  destruct (if p1 =? 0 then ptr_nil else select_prop_ptr w p1),
           (if p2 =? 0 then ptr_nil else select_prop_ptr w p2),
           s as [wd [] [] []]; reflexivity.
Qed.

Lemma net_wm_state_client_message_self
    (w : World) (d : client_message_data) (m : Machine) :
  let r := net_wm_state_client_message w d m in
  fst r = Returned tt ∧
  self (snd r) =
    set_cached_state
      (apply_action w (data0 d) (data2 d)
         (apply_action w (data0 d) (data1 d) (state (cached (self m)))))
      (self m).
Proof.
  cbn zeta. unfold net_wm_state_client_message.
  rewrite (bind_returned get_self _ m m (self m)) by reflexivity.
  cbn [fold_left]. apply push_both_self.
Qed.

(** C5: on a bridge whose cached state has minimized, maximized and
    fullscreen clear, a [_NET_WM_STATE] message with action ADD (1) and the
    fullscreen atom as its only target property leaves the cached state
    with fullscreen set and the other flags as they were (the fullscreen
    atom being, as atoms of different names are, non-zero and different
    from the hidden and maximized-horizontal atoms); and whatever the
    cached state, two successive messages with action TOGGLE (2) and the
    same target properties leave the bridge's fields as they were before
    the first. *)
Theorem net_wm_state_add_fullscreen_toggle_twice
    (w : World) (b : XWaylandSurface) (d d' : client_message_data) :
  (net_wm_state_fullscreen (connection w) ≠ 0 ->
   net_wm_state_fullscreen (connection w) ≠ net_wm_state_hidden (connection w) ->
   net_wm_state_fullscreen (connection w) ≠
     net_wm_state_maximized_horz (connection w) ->
   data0 d = 1 ->
   data1 d = net_wm_state_fullscreen (connection w) ->
   data2 d = 0 ->
   WindowState.minimized (state (cached b)) = false ->
   WindowState.maximized (state (cached b)) = false ->
   WindowState.fullscreen (state (cached b)) = false ->
   let r := run (net_wm_state_client_message w d) b in
   fst r = Returned tt ∧
   state (cached (self (snd r))) =
     WindowState.mk (WindowState.withdrawn (state (cached b))) false false true)
  ∧ (data0 d = 2 -> data0 d' = 2 ->
     data1 d' = data1 d -> data2 d' = data2 d ->
     let r := run (net_wm_state_client_message w d ;;
                   net_wm_state_client_message w d') b in
     fst r = Returned tt ∧ self (snd r) = b).
Proof.
  split.
  - intros Hfs0 Hfsh Hfsm Ha Hp1 Hp2 Hmin Hmax Hfs. cbn zeta. unfold run.
    pose proof (net_wm_state_client_message_self w d (mkMachine b [])) as [Hr Hs].
    split; [done |]. rewrite Hs. cbn [self].
    rewrite Ha, Hp1, Hp2. rewrite (apply_action_nil w 1 0) by reflexivity.
    rewrite apply_action_target.
    rewrite (proj2 (Z.eqb_neq _ _) Hfs0). unfold select_prop_ptr.
    rewrite (proj2 (Z.eqb_neq _ _) Hfsh), (proj2 (Z.eqb_neq _ _) Hfsm), Z.eqb_refl.
    destruct b as [win [o sz tl pr [wd mn mx fs]] ps ws wse ob]; cbn in *.
    by subst.
  - intros Ha Ha' Hp1 Hp2. cbn zeta. unfold run.
    pose proof (net_wm_state_client_message_self w d (mkMachine b [])) as [Hr Hs].
    destruct (net_wm_state_client_message w d (mkMachine b []))
      as [[[] | e] m1] eqn:E; simpl in Hr, Hs; [| discriminate].
    rewrite (bind_returned _ _ _ _ _ E).
    pose proof (net_wm_state_client_message_self w d' m1) as [Hr' Hs'].
    split; [done |]. rewrite Hs', Hs. cbn [self].
    rewrite Ha', Hp1, Hp2, Ha.
    change (state (cached (set_cached_state ?s b))) with s.
    rewrite set_cached_state_twice.
    rewrite (toggle_twice w (data1 d) (data2 d)).
    apply set_cached_state_id.
Qed.

(** A restored bridge receives ADD fullscreen, and a bridge receives the
    same TOGGLE twice. *)
Lemma net_wm_state_add_fullscreen_toggle_twice_witness :
  let b := set_cached_state (WindowState.mk false false false false)
             example_bridge in
  let add := mkData 1 307 0 1 0 in
  let toggle := mkData 2 304 307 1 0 in
  state (cached (self (snd (run (net_wm_state_client_message example_world add) b))))
    = WindowState.mk false false false true
  ∧ self (snd (run (net_wm_state_client_message example_world toggle ;;
                    net_wm_state_client_message example_world toggle) b)) = b.
Proof.
  cbn zeta. split.
  - refine (proj2 (proj1 (net_wm_state_add_fullscreen_toggle_twice
             example_world _ (mkData 1 307 0 1 0) (mkData 1 307 0 1 0))
             _ _ _ _ _ _ _ _ _));
      first [reflexivity | discriminate].
  - refine (proj2 (proj2 (net_wm_state_add_fullscreen_toggle_twice
             example_world _ (mkData 2 304 307 1 0) (mkData 2 304 307 1 0))
             _ _ _ _));
      first [reflexivity | discriminate].
Defined.

Lemma net_wm_state_client_message_congr
    (w : World) (d d' : client_message_data) (m : Machine) :
  (∀ s, apply_action w (data0 d) (data2 d) (apply_action w (data0 d) (data1 d) s) =
        apply_action w (data0 d') (data2 d') (apply_action w (data0 d') (data1 d') s)) ->
  net_wm_state_client_message w d m = net_wm_state_client_message w d' m.
Proof.
  intros H. unfold net_wm_state_client_message.
  rewrite !(bind_returned get_self _ m m (self m)) by reflexivity.
  cbn [fold_left]. by rewrite H.
Qed.

(** C10: a target property of a [_NET_WM_STATE] message that is none of
    the hidden, maximized-horizontal and fullscreen atoms changes no flag,
    whatever the action: the handler does exactly what it does for the
    message with that slot zeroed, in either slot, and it returns rather
    than throws.  A zero slot changes no flag either. *)
Theorem net_wm_state_unrecognized_property_ignored
    (w : World) (b : XWaylandSurface) (action p other d3 d4 : Z) :
  p ≠ net_wm_state_hidden (connection w) ->
  p ≠ net_wm_state_maximized_horz (connection w) ->
  p ≠ net_wm_state_fullscreen (connection w) ->
  (∀ s, apply_action w action p s = s)
  ∧ (∀ s, apply_action w action 0 s = s)
  ∧ run (net_wm_state_client_message w (mkData action p other d3 d4)) b =
    run (net_wm_state_client_message w (mkData action 0 other d3 d4)) b
  ∧ run (net_wm_state_client_message w (mkData action other p d3 d4)) b =
    run (net_wm_state_client_message w (mkData action other 0 d3 d4)) b
  ∧ fst (run (net_wm_state_client_message w (mkData action p other d3 d4)) b) =
    Returned tt
  ∧ fst (run (net_wm_state_client_message w (mkData action other p d3 d4)) b) =
    Returned tt.
Proof.
  intros H1 H2 H3.
  assert (Hp : ∀ s, apply_action w action p s = s).
  { intros s. apply apply_action_nil.
    rewrite select_prop_ptr_nil by done. by destruct (p =? 0). }
  assert (H0 : ∀ s, apply_action w action 0 s = s).
  { intros s. by apply apply_action_nil. }
  repeat split; try done.
  - apply net_wm_state_client_message_congr. intros s. cbn [data0 data1 data2].
    by rewrite Hp, H0.
  - apply net_wm_state_client_message_congr. intros s. cbn [data0 data1 data2].
    by rewrite Hp, H0.
  - apply net_wm_state_client_message_self.
  - apply net_wm_state_client_message_self.
Qed.

(** A maximized bridge is asked to add fullscreen together with an atom
    the handler does not know (999). *)
Lemma net_wm_state_unrecognized_property_ignored_witness :
  let b := set_cached_state (WindowState.mk false false true false)
             example_bridge in
  run (net_wm_state_client_message example_world (mkData 1 999 307 1 0)) b =
  run (net_wm_state_client_message example_world (mkData 1 0 307 1 0)) b.
Proof.
  cbn zeta.
  refine (proj1 (proj2 (proj2 (net_wm_state_unrecognized_property_ignored
            example_world _ 1 999 307 1 0 _ _ _))));
    discriminate.
Defined.

(** ** Compositor-reported state *)

Lemma scene_surface_state_set_unfold
    (w : World) (st : MirWindowState) (m : Machine) :
  scene_surface_state_set w st m =
    (inform_client_of_window_state w
       (WindowState.updated_from (state (cached (self m))) st) ;;
     if bool_decide (st = mir_window_state_minimized) ||
        bool_decide (st = mir_window_state_minimized)
     then call (configure_window (window (self m)) None None None
                  (Some XCB_STACK_MODE_BELOW))
     else mret tt) m.
Proof. reflexivity. Qed.

(** C6 on the code: for every native state the handler pushes
    [updated_from] of the cached state to the client, and for
    [mir_window_state_minimized] its last call lowers the window.  For
    [mir_window_state_hidden] the pushed state has minimized set as well,
    yet no configure call is made: the condition of the handler names
    [mir_window_state_minimized] twice and [mir_window_state_hidden] not at
    all. *)
Theorem scene_surface_state_set_hidden_not_lowered
    (w : World) (b : XWaylandSurface) :
  (∀ st, let r := run (scene_surface_state_set w st) b in
         fst r = Returned tt ∧
         state (cached (self (snd r))) =
           WindowState.updated_from (state (cached b)) st)
  ∧ (let r := run (scene_surface_state_set w mir_window_state_minimized) b in
     last (calls (snd r)) =
       Some (configure_window (window b) None None None
               (Some XCB_STACK_MODE_BELOW)))
  ∧ (let r := run (scene_surface_state_set w mir_window_state_hidden) b in
     WindowState.minimized (state (cached (self (snd r)))) = true ∧
     Forall (fun c => is_configure_window c = false) (calls (snd r))).
Proof.
  split; [| split].
  - intros st. cbn zeta. unfold run. rewrite scene_surface_state_set_unfold.
    pose proof (inform_client_self w
      (WindowState.updated_from (state (cached b)) st) (mkMachine b [])) as [Hr Hs].
    cbn [self] in *.
    destruct (inform_client_of_window_state w _ (mkMachine b []))
      as [[[] | e] m1] eqn:E; simpl in Hr, Hs; [| discriminate].
    rewrite (bind_returned _ _ _ _ _ E).
    destruct (bool_decide (st = mir_window_state_minimized) ||
              bool_decide (st = mir_window_state_minimized));
      cbn; by rewrite Hs.
  - cbn zeta. unfold run. rewrite scene_surface_state_set_unfold.
    pose proof (inform_client_self w
      (WindowState.updated_from (state (cached b)) mir_window_state_minimized)
      (mkMachine b [])) as [Hr Hs].
    cbn [self] in *.
    destruct (inform_client_of_window_state w _ (mkMachine b []))
      as [[[] | e] m1] eqn:E; simpl in Hr, Hs; [| discriminate].
    rewrite (bind_returned _ _ _ _ _ E).
    rewrite bool_decide_eq_true_2 by reflexivity.
    cbn. by rewrite last_snoc.
  - cbn zeta. unfold run. rewrite scene_surface_state_set_unfold.
    pose proof (inform_client_self w
      (WindowState.updated_from (state (cached b)) mir_window_state_hidden)
      (mkMachine b [])) as [Hr Hs].
    pose proof (inform_client_no_configure w
      (WindowState.updated_from (state (cached b)) mir_window_state_hidden)
      (mkMachine b []) (List.Forall_nil _)) as Hc.
    cbn [self] in *.
    destruct (inform_client_of_window_state w _ (mkMachine b []))
      as [[[] | e] m1] eqn:E; simpl in Hr, Hs, Hc; [| discriminate].
    rewrite (bind_returned _ _ _ _ _ E).
    rewrite bool_decide_eq_false_2 by discriminate.
    cbn. split; [by rewrite Hs | done].
Qed.

(** ** Configure requests *)

(** C7, as the claim words it, fails: the handler does not write the
    cache.  A request for X = 55 on an unattached bridge cached at
    (10,20) leaves the cached X at 10. *)
Lemma configure_request_x_leaves_cached_x :
  let r := run (configure_request example_world example_configure_x)
             example_bridge in
  geom.x (cached_top_left (cached (self (snd r)))) = 10 ∧
  geom.x (cached_top_left (cached (self (snd r)))) ≠ event_x example_configure_x.
Proof. vm_compute. split; [reflexivity | discriminate]. Qed.

(** C7 (amended): a configure request whose value mask flags the X
    coordinate and none of Y, width and height, received while no scene
    surface is attached, leaves every field of the bridge as it was, the
    cached geometry included, and makes exactly one configure call on the
    legacy window, with the requested X and the cached Y, width and
    height, followed by a flush. *)
Theorem configure_request_x_only_unattached
    (w : World) (b : XWaylandSurface) (event : xcb_configure_request_event_t) :
  lock_surface w (weak_scene_surface b) = None ->
  Z.land (value_mask event) XCB_CONFIG_WINDOW_X ≠ 0 ->
  Z.land (value_mask event) XCB_CONFIG_WINDOW_Y = 0 ->
  Z.land (value_mask event) XCB_CONFIG_WINDOW_WIDTH = 0 ->
  Z.land (value_mask event) XCB_CONFIG_WINDOW_HEIGHT = 0 ->
  run (configure_request w event) b =
    (Returned tt,
     mkMachine b
       [configure_window (window b)
          (Some (geom.mkPoint (event_x event)
                   (geom.y (cached_top_left (cached b)))))
          (Some (cached_size (cached b)))
          None None;
        flush]).
Proof.
  intros Hlock HX HY HW HH.
  unfold configure_request. unfold_m. cbn [self calls].
  rewrite Hlock. unfold mask_has. rewrite HY, HW, HH.
  apply Z.eqb_neq in HX. rewrite HX. cbn.
  by destruct (cached_size (cached b)).
Qed.

Lemma configure_request_x_only_unattached_witness :
  run (configure_request example_world example_configure_x) example_bridge =
    (Returned tt,
     mkMachine example_bridge
       [configure_window 42 (Some (geom.mkPoint 55 20))
          (Some (geom.mkSize 300 200)) None None;
        flush]).
Proof.
  apply (configure_request_x_only_unattached example_world example_bridge
           example_configure_x);
    first [reflexivity | discriminate].
Defined.

(** ** Transient-for resolution *)

Lemma update_pending_spec_run
    (f : SurfaceSpecification -> SurfaceSpecification) (m : Machine) :
  update_pending_spec f m =
    (Returned tt,
     mkMachine
       (set_nullable_pending_spec
          (Some (f (default empty_spec (nullable_pending_spec (self m)))))
          (self m))
       (calls m)).
Proof.
  unfold update_pending_spec. unfold_m.
  by destruct (nullable_pending_spec (self m)).
Qed.

Lemma is_transient_for_run (w : World) (transient_for : xcb_window_t) (m : Machine) :
  is_transient_for w transient_for m =
    (Returned tt,
     mkMachine
       (set_nullable_pending_spec
          (Some (set_position (resolve_transient_for w transient_for)
                   (cached_top_left (cached (self m)))
                   (set_spec_parent (fst <$> resolve_transient_for w transient_for)
                      (default empty_spec (nullable_pending_spec (self m))))))
          (self m))
       (calls m)).
Proof.
  unfold is_transient_for.
  rewrite (bind_returned get_self _ m m (self m)) by reflexivity.
  erewrite bind_returned by apply update_pending_spec_run.
  by rewrite update_pending_spec_run.
Qed.

(** C8: [is_transient_for] writes the parent it resolves, which can be
    none, into the pending specification together with the position, as a
    1x1 auxiliary rectangle relative to the parent's content origin with
    north-west gravities when there is a parent and as an absolute
    top-left when there is none, and makes no call.  A null transient-for
    window resolves to no parent, whatever window is focused.  When the
    window named has no bridge, or a bridge without a live scene surface,
    and the focused window's bridge has a live scene surface, that surface
    is the parent resolved. *)
Theorem is_transient_for_resolution
    (w : World) (b : XWaylandSurface) (transient_for : xcb_window_t) :
  let parent := resolve_transient_for w transient_for in
  let top_left := cached_top_left (cached b) in
  let before := default empty_spec (nullable_pending_spec b) in
  (∃ spec,
     run (is_transient_for w transient_for) b =
       (Returned tt, mkMachine (set_nullable_pending_spec (Some spec) b) []) ∧
     spec_parent spec = Some (fst <$> parent) ∧
     match parent with
     | Some (_, p) =>
         spec_aux_rect spec =
           Some (geom.mkRectangle
                   (geom.mkPoint
                      (geom.x top_left - geom.x (surface_top_left p)
                       - geom.dx (surface_content_offset p))
                      (geom.y top_left - geom.y (surface_top_left p)
                       - geom.dy (surface_content_offset p)))
                   (geom.mkSize 1 1)) ∧
         spec_placement_hints spec = Some 0 ∧
         spec_surface_placement_gravity spec =
           Some mir_placement_gravity_northwest ∧
         spec_aux_rect_placement_gravity spec =
           Some mir_placement_gravity_northwest ∧
         spec_top_left spec = spec_top_left before
     | None =>
         spec_top_left spec = Some top_left ∧
         spec_aux_rect spec = spec_aux_rect before
     end)
  ∧ (transient_for = XCB_WINDOW_NONE -> parent = None)
  ∧ (∀ focused c surface,
       transient_for ≠ XCB_WINDOW_NONE ->
       (get_wm_surface (xwm w) transient_for = None ∨
        ∃ named, get_wm_surface (xwm w) transient_for = Some named ∧
                 lock_surface w (weak_scene_surface named) = None) ->
       get_focused_window (xwm w) = Some focused ->
       get_wm_surface (xwm w) focused = Some c ->
       lock_surface w (weak_scene_surface c) = Some surface ->
       parent = Some surface).
Proof.
  cbn zeta. split; [| split].
  - eexists. unfold run. rewrite is_transient_for_run. cbn [self calls].
    split; [reflexivity |].
    destruct (resolve_transient_for w transient_for) as [[id p] |]; cbn; auto 10.
  - intros ->. reflexivity.
  - intros focused c surface Hne Hnamed Hfocus Hc Hsurface.
    unfold resolve_transient_for.
    rewrite bool_decide_eq_true_2 by done.
    assert (get_scene_surface_from w transient_for = None) as ->.
    { unfold get_scene_surface_from.
      destruct Hnamed as [-> | (named & -> & ->)]; reflexivity. }
    rewrite Hfocus. unfold get_scene_surface_from. by rewrite Hc.
Qed.

(** Window 1 becomes transient for window 2, which has no scene surface:
    the parent is surface 7 of the focused window 3. *)
Lemma is_transient_for_resolution_witness :
  resolve_transient_for transient_world 2 = Some (7%positive, example_parent_surface).
Proof.
  refine (proj2 (proj2 (is_transient_for_resolution transient_world
            (bridge_of_window 1 None) 2))
            3 (bridge_of_window 3 (Some 7%positive))
            (7%positive, example_parent_surface) _ _ _ _ _).
  - discriminate.
  - right. exists (bridge_of_window 2 None). split; reflexivity.
  - reflexivity.
  - reflexivity.
  - reflexivity.
Defined.

(** ** Attaching the Wayland surface *)

Create HintDb keeps.

Lemma keeps_ret {A} (a : A) : keeps_observer (mret a).
Proof. intros m. by exists a, m. Qed.

Lemma keeps_bind {A B} (c : M A) (k : A -> M B) :
  keeps_observer c -> (∀ a, keeps_observer (k a)) -> keeps_observer (c ≫= k).
Proof.
  intros Hc Hk m.
  destruct (Hc m) as (a & m1 & E1 & O1).
  destruct (Hk a m1) as (b & m2 & E2 & O2).
  exists b, m2. rewrite (bind_returned _ _ _ _ _ E1). split; [done | congruence].
Qed.

Lemma keeps_get_self : keeps_observer get_self.
Proof. intros m. by exists (self m), m. Qed.

Lemma keeps_call (c : Call) : keeps_observer (call c).
Proof. intros m. by eexists tt, _. Qed.

Lemma keeps_modify_self (f : XWaylandSurface -> XWaylandSurface) :
  (∀ b, surface_observer (f b) = surface_observer b) ->
  keeps_observer (modify_self f).
Proof. intros Hf m. eexists tt, _. split; [reflexivity | apply Hf]. Qed.

Lemma keeps_for_each {A} (f : A -> M unit) (l : list A) :
  (∀ a, keeps_observer (f a)) -> keeps_observer (for_each f l).
Proof.
  intros Hf. induction l as [| a l IH]; cbn [for_each].
  - apply keeps_ret.
  - apply keeps_bind; auto.
Qed.

Lemma keeps_update_pending_spec f : keeps_observer (update_pending_spec f).
Proof. intros m. rewrite update_pending_spec_run. by eexists tt, _. Qed.

Lemma keeps_is_transient_for w tf : keeps_observer (is_transient_for w tf).
Proof. intros m. rewrite is_transient_for_run. by eexists tt, _. Qed.

Lemma keeps_consume_pending_spec : keeps_observer consume_pending_spec.
Proof.
  intros m. unfold consume_pending_spec. unfold_m.
  destruct (nullable_pending_spec (self m)); by eexists _, _.
Qed.

Lemma keeps_inform_client w s : keeps_observer (inform_client_of_window_state w s).
Proof.
  intros m. pose proof (inform_client_self w s m) as [Hr Hs].
  destruct (inform_client_of_window_state w s m) as [[[] | e] m1];
    simpl in *; [| discriminate].
  exists tt, m1. split; [done |]. by rewrite Hs.
Qed.

#[local] Hint Resolve keeps_ret keeps_get_self keeps_call keeps_for_each
  keeps_update_pending_spec keeps_is_transient_for keeps_consume_pending_spec
  keeps_inform_client : keeps.

Lemma keeps_issue_read entry : keeps_observer (issue_read entry).
Proof. apply keeps_bind; auto with keeps. Qed.

Lemma keeps_complete_read w replies entry :
  keeps_observer (complete_read w replies entry).
Proof.
  unfold complete_read.
  destruct (snd entry), replies as [[?|] [?|] [?|] [?|] [?|]]; cbn;
    auto using keeps_modify_self with keeps.
Qed.

#[local] Hint Resolve keeps_issue_read keeps_complete_read : keeps.

Lemma attach_wl_surface_attached
    (w : World) (wl_surface : WlSurface) (replies : PropertyReplies)
    (surface : SurfaceId * Surface) (m : Machine) :
  already_attached w (self m) = true ->
  attach_wl_surface w wl_surface replies surface m =
    (Thrown "XWaylandSurface::set_wl_surface() called multiple times", m).
Proof.
  intros H. unfold attach_wl_surface.
  rewrite (bind_returned get_self _ m m (self m)) by reflexivity.
  by rewrite H.
Qed.

Lemma attach_wl_surface_fresh
    (w : World) (wl_surface : WlSurface) (replies : PropertyReplies)
    (surface : SurfaceId * Surface) (m : Machine) :
  already_attached w (self m) = false ->
  ∃ m1, attach_wl_surface w wl_surface replies surface m = (Returned tt, m1) ∧
        surface_observer (self m1) = Some (wl_id wl_surface).
Proof.
  intros H. unfold attach_wl_surface.
  rewrite (bind_returned get_self _ m m (self m)) by reflexivity.
  rewrite H. cbv zeta.
  erewrite bind_returned by reflexivity.
  match goal with
  | |- ∃ m1, ?rest ?m0 = _ ∧ _ =>
      assert (K : keeps_observer rest); [| destruct (K m0) as ([] & m1 & E & O)]
  end.
  - repeat first
      [ solve [auto using keeps_modify_self with keeps]
      | apply keeps_bind; [| intros ?] ].
  - exists m1. split; [done |]. by rewrite O.
Qed.

(** C9: while a surface observer, a session or a live scene surface left
    by an earlier attach is present, [attach_wl_surface] throws and leaves
    the bridge's fields, those three references among them, and the log as
    they were.  On a bridge with none of the three it returns with the
    observer set, so that any further call, in whatever state the server
    is by then, is such a throw. *)
Theorem attach_wl_surface_only_once
    (w : World) (wl_surface : WlSurface) (replies : PropertyReplies)
    (surface : SurfaceId * Surface) (m : Machine) :
  (already_attached w (self m) = true ->
   attach_wl_surface w wl_surface replies surface m =
     (Thrown "XWaylandSurface::set_wl_surface() called multiple times", m))
  ∧ (already_attached w (self m) = false ->
     ∃ m1,
       attach_wl_surface w wl_surface replies surface m = (Returned tt, m1) ∧
       ∀ w' wl_surface' replies' surface',
         attach_wl_surface w' wl_surface' replies' surface' m1 =
           (Thrown "XWaylandSurface::set_wl_surface() called multiple times", m1)).
Proof.
  split.
  - apply attach_wl_surface_attached.
  - intros H.
    destruct (attach_wl_surface_fresh w wl_surface replies surface m H)
      as (m1 & E & O).
    exists m1. split; [done |].
    intros w' wl' replies' surface'. apply attach_wl_surface_attached.
    unfold already_attached. rewrite O.
    rewrite bool_decide_eq_true_2 by eauto. reflexivity.
Qed.

(** The fresh example bridge is attached once, then a second time. *)
Lemma attach_wl_surface_only_once_witness :
  ∃ m1,
    run (attach_wl_surface example_world example_wl_surface example_replies
           example_created_surface) example_bridge = (Returned tt, m1) ∧
    attach_wl_surface transient_world example_wl_surface example_replies
      example_created_surface m1 =
      (Thrown "XWaylandSurface::set_wl_surface() called multiple times", m1).
Proof.
  destruct (proj2 (attach_wl_surface_only_once example_world example_wl_surface
                     example_replies example_created_surface
                     (mkMachine example_bridge [])) eq_refl)
    as (m1 & E & Hagain).
  exists m1. split; [exact E | apply Hagain].
Defined.

(** * Further properties of the bridge *)

(** ** The window-state model, the other way round *)

(** X1: [mir_window_state] only ever reports restored, minimized,
    maximized or fullscreen, and on these four [updated_from] is its right
    inverse: whatever the receiver, updating from one of them and mapping
    back gives that state. *)
Theorem mir_window_state_of_updated_from
    (s : WindowState.t) (st : MirWindowState) :
  WindowState.mir_window_state s ∈ reported_states
  ∧ (st ∈ reported_states ->
     WindowState.mir_window_state (WindowState.updated_from s st) = st).
Proof.
  split.
  - destruct s as [wd [] [] []]; cbn; unfold reported_states;
      repeat first [apply list_elem_of_here | apply list_elem_of_further].
  - unfold reported_states. intros H.
    repeat (apply elem_of_cons in H; destruct H as [-> | H]);
      [destruct s as [wd mn mx fs]; reflexivity .. |].
    by apply elem_of_nil in H.
Qed.

Lemma mir_window_state_of_updated_from_witness :
  WindowState.mir_window_state
    (WindowState.updated_from (WindowState.mk true true true false)
       mir_window_state_fullscreen) = mir_window_state_fullscreen.
Proof.
  apply (proj2 (mir_window_state_of_updated_from
                  (WindowState.mk true true true false)
                  mir_window_state_fullscreen)).
  unfold reported_states. repeat first [apply list_elem_of_here | apply list_elem_of_further].
Defined.

(** ** Interactive move and resize *)

Lemma wm_resize_edge_some_range (detail : Z) :
  is_Some (wm_resize_edge_to_mir_resize_edge detail) -> 0 ≤ detail ≤ 7.
Proof.
  intros [e He].
  destruct detail as [| [[[|q|]|[|q|]|] | [[|q|]|[|q|]|] |] |]; cbn in He; try lia;
    try discriminate; destruct q; discriminate.
Qed.

(** X2: [wm_resize_edge_to_mir_resize_edge] yields an edge exactly for the
    details 0 to 7, and two details with the same edge are the same
    detail. *)
Theorem wm_resize_edge_to_mir_resize_edge_defined (detail : Z) :
  (is_Some (wm_resize_edge_to_mir_resize_edge detail) <-> 0 ≤ detail ≤ 7)
  ∧ (∀ detail' edge,
       wm_resize_edge_to_mir_resize_edge detail = Some edge ->
       wm_resize_edge_to_mir_resize_edge detail' = Some edge ->
       detail = detail').
Proof.
  pose proof wm_resize_edge_some_range as Hdef.
  assert (cases : ∀ d, 0 ≤ d ≤ 7 ->
            d = 0 ∨ d = 1 ∨ d = 2 ∨ d = 3 ∨ d = 4 ∨ d = 5 ∨ d = 6 ∨ d = 7)
    by (intros; lia).
  split; [split |].
  - apply Hdef.
  - intros H.
    destruct (cases _ H) as [-> | [-> | [-> | [-> | [-> | [-> | [-> | ->]]]]]]];
      by eexists.
  - intros d' e H H'.
    pose proof (Hdef _ (ex_intro _ e H)) as R.
    pose proof (Hdef _ (ex_intro _ e H')) as R'.
    destruct (cases _ R) as [-> | [-> | [-> | [-> | [-> | [-> | [-> | ->]]]]]]];
    destruct (cases _ R') as [-> | [-> | [-> | [-> | [-> | [-> | [-> | ->]]]]]]];
      cbn in H, H'; congruence.
Qed.

Lemma wm_resize_edge_to_mir_resize_edge_defined_witness :
  0 ≤ 3 ≤ 7 ∧ is_Some (wm_resize_edge_to_mir_resize_edge 3).
Proof.
  assert (0 ≤ 3 ≤ 7) as H by lia.
  split; [exact H |].
  exact (proj2 (proj1 (wm_resize_edge_to_mir_resize_edge_defined 3)) H).
Defined.

Ltac unfold_h :=
  unfold serve, mbind, mret, Handler_bind, Handler_ret, get_bridge,
    modify_bridge, server_call, fatal.

Lemma handler_bind_returned {A B} (c : Handler A) (k : A -> Handler B)
    (m m' : Server) (a : A) :
  c m = (Returned a, m') -> (c ≫= k) m = k a m'.
Proof. intros E. unfold mbind, Handler_bind. by rewrite E. Qed.

Lemma lift_returned {A} (c : M A) (m : Server) (a : A) (m' : Machine) :
  c (mkMachine (bridge m) []) = (Returned a, m') ->
  lift c m =
    (Returned a,
     mkServer (self m') (server_calls m ++ (bridge_call <$> calls m'))).
Proof. intros E. unfold lift. by rewrite E. Qed.

Lemma bridge_calls_app (l l' : list ServerCall) :
  bridge_calls (l ++ l') = bridge_calls l ++ bridge_calls l'.
Proof. unfold bridge_calls. apply omap_app. Qed.

Lemma bridge_calls_embedded (l : list Call) :
  bridge_calls (bridge_call <$> l) = l.
Proof.
  unfold bridge_calls. induction l as [| c l IH]; [done |].
  cbn. by rewrite IH.
Qed.

(** X3: [move_resize] never writes the bridge and always returns.  The
    only calls it can make on the shell are one [request_move], for detail
    8 (MOVE), and one [request_resize], for a detail from 0 to 7, both
    with the latest timestamp of the observer (0 when there is none), and
    both only when the bridge has a live scene surface.  For every other
    detail, the keyboard and cancel variants included, no call reaches the
    shell. *)
Theorem move_resize_shell_calls
    (w : World) (latest_timestamp : WlSurfaceId -> Z) (detail : Z)
    (b : XWaylandSurface) :
  let r := serve (move_resize w latest_timestamp detail) b in
  let timestamp :=
    match surface_observer b with
    | Some o => latest_timestamp o
    | None => 0
    end in
  fst r = Returned tt
  ∧ bridge (snd r) = b
  ∧ filter (fun c => is_shell_call c = true) (server_calls (snd r)) =
      match lock_surface w (weak_scene_surface b) with
      | None => []
      | Some (id, s) =>
          let session := lock_session w (surface_session s) in
          if detail =? 8 then [request_move session id timestamp]
          else
            match wm_resize_edge_to_mir_resize_edge detail with
            | Some edge => [request_resize session id timestamp edge]
            | None => []
            end
      end
  ∧ (¬ 0 ≤ detail ≤ 8 ->
     filter (fun c => is_shell_call c = true) (server_calls (snd r)) = []).
Proof.
  cbn zeta.
  assert (Hedge : ¬ 0 ≤ detail ≤ 8 ->
                  wm_resize_edge_to_mir_resize_edge detail = None).
  { intros Hd.
    destruct (wm_resize_edge_to_mir_resize_edge detail) as [e |] eqn:E; [| done].
    destruct (wm_resize_edge_some_range detail (ex_intro _ e E)). lia. }
  unfold move_resize, latest_input_timestamp, NetWmMoveresize_MOVE. unfold_h.
  cbn [bridge server_calls].
  destruct (surface_observer b) as [o |];
    destruct (lock_surface w (weak_scene_surface b)) as [[id s] |];
    destruct (detail =? 8) eqn:E8; cbn;
    try (destruct (wm_resize_edge_to_mir_resize_edge detail) as [e |] eqn:Ee; cbn);
    repeat split; try done; intros Hd;
    try (apply Z.eqb_eq in E8; lia);
    try (specialize (Hedge Hd); congruence).
Qed.

(** A keyboard-driven move (detail 10) on the bridge of window 3, whose
    scene surface 7 is alive. *)
Lemma move_resize_shell_calls_witness :
  filter (fun c => is_shell_call c = true)
    (server_calls
       (snd (serve (move_resize transient_world (fun _ => 5) 10)
               (bridge_of_window 3 (Some 7%positive))))) = [].
Proof.
  apply (move_resize_shell_calls transient_world (fun _ => 5) 10
           (bridge_of_window 3 (Some 7%positive))).
  lia.
Defined.

(** ** What the handlers leave alone *)

Create HintDb frame.

Section frame.

Context {X : Type} (proj : XWaylandSurface -> X).

Lemma preserves_ret {A} (a : A) : preserves proj (mret a).
Proof. by intros m. Qed.

Lemma preserves_throw {A} (e : string) : preserves proj (@throw A e).
Proof. by intros m. Qed.

Lemma preserves_get_self : preserves proj get_self.
Proof. by intros m. Qed.

Lemma preserves_call (c : Call) : preserves proj (call c).
Proof. by intros m. Qed.

Lemma preserves_modify_self (f : XWaylandSurface -> XWaylandSurface) :
  (∀ b, proj (f b) = proj b) -> preserves proj (modify_self f).
Proof. intros Hf m. apply Hf. Qed.

Lemma preserves_bind {A B} (c : M A) (k : A -> M B) :
  preserves proj c -> (∀ a, preserves proj (k a)) -> preserves proj (c ≫= k).
Proof.
  intros Hc Hk m. specialize (Hc m). unfold mbind, M_bind.
  destruct (c m) as [[a | e] m1]; cbn in *; [| done].
  by rewrite Hk.
Qed.

Lemma preserves_for_each {A} (f : A -> M unit) (l : list A) :
  (∀ a, preserves proj (f a)) -> preserves proj (for_each f l).
Proof.
  intros Hf. induction l as [| a l IH]; cbn [for_each].
  - apply preserves_ret.
  - by apply preserves_bind.
Qed.

End frame.

#[local] Hint Resolve preserves_ret preserves_throw preserves_get_self
  preserves_call preserves_for_each : frame.

Ltac frame :=
  repeat first
    [ solve [auto with frame]
    | solve [apply preserves_modify_self; intros [? [] ? ? ? ?]; reflexivity]
    | apply preserves_bind; [| intros ?]
    | match goal with
      | |- preserves _ (if ?c then _ else _) => destruct c
      | |- preserves _ (match ?o with Some _ => _ | None => _ end) =>
          destruct o
      | |- preserves _ (let '(_, _) := ?p in _) => destruct p
      end ].

Lemma preserves_inform_client w s :
  preserves attachment (inform_client_of_window_state w s).
Proof. unfold inform_client_of_window_state. frame. Qed.

Lemma preserves_request_scene_surface_state w st :
  preserves attachment (request_scene_surface_state w st).
Proof. unfold request_scene_surface_state. frame. Qed.

Lemma preserves_update_pending_spec f :
  preserves attachment (update_pending_spec f).
Proof.
  intros m. rewrite update_pending_spec_run. by destruct (self m).
Qed.

Lemma preserves_is_transient_for w tf :
  preserves attachment (is_transient_for w tf).
Proof.
  intros m. rewrite is_transient_for_run. by destruct (self m).
Qed.

Lemma preserves_consume_pending_spec :
  preserves attachment consume_pending_spec.
Proof. unfold consume_pending_spec. frame. Qed.

#[local] Hint Resolve preserves_inform_client
  preserves_request_scene_surface_state preserves_update_pending_spec
  preserves_is_transient_for preserves_consume_pending_spec : frame.

Lemma preserves_issue_read entry : preserves attachment (issue_read entry).
Proof. unfold issue_read. frame. Qed.

Lemma preserves_complete_read w replies entry :
  preserves attachment (complete_read w replies entry).
Proof.
  unfold complete_read. destruct (snd entry); frame.
Qed.

#[local] Hint Resolve preserves_issue_read preserves_complete_read : frame.

Lemma handlers_preserve_attachment_aux (w : World) :
  (∀ st, preserves attachment (scene_surface_state_set w st))
  ∧ (∀ ev, preserves attachment (configure_request w ev)).
Proof.
  split; intros.
  - unfold scene_surface_state_set. frame.
  - unfold configure_request. frame.
Qed.

(** X4: the window a bridge stands for and its three references (scene
    surface, session, observer) are written by none of the handlers of
    client messages, configure events and property notifications, nor by
    the compositor callbacks for state, size and position, whether they
    return or throw. *)
Theorem handlers_preserve_attachment (w : World) :
  (∀ s, preserves attachment (inform_client_of_window_state w s))
  ∧ (∀ st, preserves attachment (request_scene_surface_state w st))
  ∧ (∀ d, preserves attachment (net_wm_state_client_message w d))
  ∧ (∀ d, preserves attachment (wm_change_state_client_message w d))
  ∧ (∀ st, preserves attachment (scene_surface_state_set w st))
  ∧ (∀ ev, preserves attachment (configure_request w ev))
  ∧ (∀ ev, preserves attachment (configure_notify ev))
  ∧ (∀ replies labels p,
       preserves attachment (property_notify w replies labels p))
  ∧ (∀ tf, preserves attachment (is_transient_for w tf))
  ∧ (∀ sz, preserves attachment (scene_surface_resized sz))
  ∧ (∀ p, preserves attachment (scene_surface_moved_to w p)).
Proof.
  repeat apply conj; intros.
  - frame.
  - frame.
  - unfold net_wm_state_client_message. frame.
  - unfold wm_change_state_client_message. frame.
  - unfold scene_surface_state_set. frame.
  - unfold configure_request. frame.
  - unfold configure_notify. frame.
  - unfold property_notify. frame.
  - frame.
  - unfold scene_surface_resized. frame.
  - unfold scene_surface_moved_to. frame.
Qed.

(** ** What reaches the shell *)

Section only_calls.

Context (P : Call -> Prop).

Lemma only_calls_ret {A} (a : A) : only_calls P (mret a).
Proof. intros m. exists []. by rewrite app_nil_r. Qed.

Lemma only_calls_throw {A} (e : string) : only_calls P (@throw A e).
Proof. intros m. exists []. by rewrite app_nil_r. Qed.

Lemma only_calls_get_self : only_calls P get_self.
Proof. intros m. exists []. by rewrite app_nil_r. Qed.

Lemma only_calls_modify_self f : only_calls P (modify_self f).
Proof. intros m. exists []. by rewrite app_nil_r. Qed.

Lemma only_calls_call (c : Call) : P c -> only_calls P (call c).
Proof. intros Hc m. exists [c]. split; [done | by constructor]. Qed.

Lemma only_calls_bind {A B} (c : M A) (k : A -> M B) :
  only_calls P c -> (∀ a, only_calls P (k a)) -> only_calls P (c ≫= k).
Proof.
  intros Hc Hk m. destruct (Hc m) as (l1 & E1 & F1).
  unfold mbind, M_bind.
  destruct (c m) as [[a | e] m1]; cbn in *; [| by exists l1].
  destruct (Hk a m1) as (l2 & E2 & F2).
  exists (l1 ++ l2). rewrite E2, E1, app_assoc. split; [done |].
  by apply Forall_app.
Qed.

End only_calls.

#[local] Hint Resolve only_calls_ret only_calls_throw only_calls_get_self
  only_calls_modify_self : frame.

Ltac only_calls :=
  repeat first
    [ solve [auto with frame]
    | solve [apply only_calls_call; reflexivity]
    | apply only_calls_bind; [| intros ?]
    | match goal with
      | |- only_calls _ (if ?c then _ else _) => destruct c
      | |- only_calls _ (match ?o with Some _ => _ | None => _ end) =>
          destruct o
      | |- only_calls _ (let '(_, _) := ?p in _) => destruct p
      end ].

Lemma inform_client_not_to_shell w s :
  only_calls not_to_shell (inform_client_of_window_state w s).
Proof. unfold inform_client_of_window_state. only_calls. Qed.

Lemma only_calls_run {A} (P : Call -> Prop) (c : M A) (b : XWaylandSurface) :
  only_calls P c -> Forall P (calls (snd (run c b))).
Proof. intros H. unfold run. destruct (H (mkMachine b [])) as (l & -> & F). done. Qed.

(** X5: no compositor callback answers by calling the shell.  Being told
    of a state, a size, a position, a focus change or a close request, the
    bridge only talks to the X side; and the last four of these leave
    every field of the bridge as it was. *)
Theorem compositor_callbacks_never_call_shell
    (w : World) (atoms : ProtocolAtoms) (b : XWaylandSurface) :
  (∀ st, Forall not_to_shell (calls (snd (run (scene_surface_state_set w st) b))))
  ∧ (∀ sz, let r := run (scene_surface_resized sz) b in
           self (snd r) = b ∧ Forall not_to_shell (calls (snd r)))
  ∧ (∀ p, let r := run (scene_surface_moved_to w p) b in
          self (snd r) = b ∧ Forall not_to_shell (calls (snd r)))
  ∧ (∀ has_focus, let r := serve (scene_surface_focus_set has_focus) b in
          bridge (snd r) = b ∧
          Forall (fun c => is_shell_call c = false) (server_calls (snd r)))
  ∧ (let r := serve (scene_surface_close_requested atoms) b in
     bridge (snd r) = b ∧
     Forall (fun c => is_shell_call c = false) (server_calls (snd r))).
Proof.
  split; [| split; [| split; [| split]]]; intros;
    repeat match goal with r := _ |- _ => subst r end.
  - apply only_calls_run. unfold scene_surface_state_set.
    pose proof inform_client_not_to_shell. only_calls.
  - split; [done | repeat constructor].
  - split; [done | repeat constructor].
  - split; [done | repeat constructor].
  - unfold scene_surface_close_requested. unfold_h. cbn.
    destruct (bool_decide (wm_delete_window atoms ∈ _)); cbn;
      split; try done; repeat constructor.
Qed.

Lemma shell_calls_none (l : list Call) :
  Forall not_to_shell l -> shell_calls l = [].
Proof.
  unfold shell_calls. induction 1 as [| c l Hc _ IH]; [done |].
  rewrite filter_cons_False; [done |].
  unfold not_to_shell in Hc. congruence.
Qed.

Lemma shell_calls_app (l l' : list Call) :
  shell_calls (l ++ l') = shell_calls l ++ shell_calls l'.
Proof. apply filter_app. Qed.

Lemma request_scene_surface_state_run
    (w : World) (st : MirWindowState) (m : Machine) :
  request_scene_surface_state w st m =
    (Returned tt,
     mkMachine (self m)
       (calls m ++
        match lock_surface w (weak_scene_surface (self m)) with
        | Some (id, s) =>
            if bool_decide (surface_state s = st) then []
            else [modify_surface (lock_session w (surface_session s)) id
                    (set_spec_state st empty_spec)]
        | None => []
        end)).
Proof.
  unfold request_scene_surface_state. unfold_m. destruct m as [b log]; cbn.
  destruct (lock_surface w (weak_scene_surface b)) as [[id s] |];
    [| by rewrite app_nil_r].
  destruct (decide (surface_state s = st)) as [E | N].
  - rewrite bool_decide_eq_false_2 by (by intros ?).
    rewrite bool_decide_eq_true_2 by done. by rewrite app_nil_r.
  - rewrite bool_decide_eq_true_2 by done.
    by rewrite bool_decide_eq_false_2 by done.
Qed.

(** The two pushes the client-message handlers and [map] end with: to
    the shell goes at most one request, for the state pushed. *)
Lemma push_both_shell_calls (w : World) (s : WindowState.t) (m : Machine) :
  let r := (inform_client_of_window_state w s ;;
            request_scene_surface_state w (WindowState.mir_window_state s)) m in
  ∃ added,
    calls (snd r) = calls m ++ added ∧
    shell_calls added =
      match lock_surface w (weak_scene_surface (self m)) with
      | Some (id, sf) =>
          if bool_decide (surface_state sf = WindowState.mir_window_state s)
          then []
          else [modify_surface (lock_session w (surface_session sf)) id
                  (set_spec_state (WindowState.mir_window_state s) empty_spec)]
      | None => []
      end.
Proof.
  cbn zeta.
  destruct (inform_client_not_to_shell w s m) as (l1 & E1 & F1).
  pose proof (inform_client_self w s m) as [Hr Hs].
  destruct (inform_client_of_window_state w s m) as [[[] | e] m1] eqn:E;
    cbn in Hr, Hs, E1; [| discriminate].
  rewrite (bind_returned _ _ _ _ _ E), request_scene_surface_state_run.
  cbn [snd calls]. rewrite E1, Hs, <- app_assoc.
  eexists. split; [reflexivity |].
  rewrite shell_calls_app, (shell_calls_none _ F1). cbn [app].
  change (weak_scene_surface (set_cached_state s (self m)))
    with (weak_scene_surface (self m)).
  destruct (lock_surface w (weak_scene_surface (self m))) as [[id sf] |]; [| done].
  by destruct (bool_decide (surface_state sf = WindowState.mir_window_state s)).
Qed.

Lemma wm_change_state_client_message_cases_aux
    (w : World) (b : XWaylandSurface) (d : client_message_data) :
  data0 d = 1 ∨ data0 d = 3 ->
  ∃ s,
    wm_change_state_client_message w d (mkMachine b []) =
      (inform_client_of_window_state w s ;;
       request_scene_surface_state w (WindowState.mir_window_state s))
        (mkMachine b []) ∧
    s = WindowState.set_minimized (data0 d =? 3) (state (cached b)).
Proof.
  intros Hd. eexists. split; [| reflexivity].
  unfold wm_change_state_client_message.
  rewrite (bind_returned get_self _ _ _ b) by reflexivity.
  destruct Hd as [-> | ->]; reflexivity.
Qed.

(** X6: handling a [_NET_WM_STATE] message, or a [WM_CHANGE_STATE]
    message for NORMAL or ICONIC, the bridge calls the shell at most once:
    when it has a live scene surface whose state differs from the native
    state of the window state it has just cached, it asks for that state
    and nothing else; without a live scene surface, or when the surface is
    in that state already, the shell is not called. *)
Theorem client_messages_request_scene_state
    (w : World) (b : XWaylandSurface) (d : client_message_data) :
  let request r :=
    let target := WindowState.mir_window_state (state (cached (self (snd r)))) in
    match lock_surface w (weak_scene_surface b) with
    | Some (id, s) =>
        if bool_decide (surface_state s = target) then []
        else [modify_surface (lock_session w (surface_session s)) id
                (set_spec_state target empty_spec)]
    | None => []
    end in
  (let r := run (net_wm_state_client_message w d) b in
   shell_calls (calls (snd r)) = request r)
  ∧ (data0 d = 1 ∨ data0 d = 3 ->
     let r := run (wm_change_state_client_message w d) b in
     shell_calls (calls (snd r)) = request r).
Proof.
  cbv zeta. split.
  - pose proof (net_wm_state_client_message_self w d (mkMachine b [])) as [_ Hs].
    unfold run. rewrite Hs. cbn [self].
    change (state (cached (set_cached_state ?s b))) with s.
    unfold net_wm_state_client_message.
    rewrite (bind_returned get_self _ _ _ b) by reflexivity.
    cbn [self fold_left].
    destruct (push_both_shell_calls w
      (apply_action w (data0 d) (data2 d)
         (apply_action w (data0 d) (data1 d) (state (cached b))))
      (mkMachine b [])) as (added & E & Hsh).
    cbn zeta in E. rewrite E. cbn [calls app]. by rewrite Hsh.
  - intros Hd.
    pose proof (wm_change_state_client_message_cases_aux w b d Hd) as (s & Hrun & Hs).
    unfold run. rewrite Hrun.
    destruct (push_both_shell_calls w s (mkMachine b [])) as (added & E & Hsh).
    pose proof (push_both_self w s (mkMachine b [])) as [_ Hself].
    cbn zeta in E, Hself. rewrite E, Hself. cbn [calls app self].
    by rewrite Hsh.
Qed.

Lemma client_messages_request_scene_state_witness :
  shell_calls
    (calls (snd (run (wm_change_state_client_message transient_world
                        (mkData 3 0 0 0 0))
                   (bridge_of_window 3 (Some 7%positive))))) =
  [modify_surface (Some 1%positive) 7%positive
     (set_spec_state mir_window_state_minimized empty_spec)].
Proof.
  rewrite (proj2 (client_messages_request_scene_state transient_world
                    (bridge_of_window 3 (Some 7%positive)) (mkData 3 0 0 0 0)))
    by (right; reflexivity).
  vm_compute. reflexivity.
Defined.

(** ** Mapping and closing *)

Lemma inform_client_run (w : World) (s : WindowState.t) (m : Machine) :
  inform_client_of_window_state w s m =
    (Returned tt,
     mkMachine (set_cached_state s (self m))
       (calls m ++ pushed_calls w (self m) s)).
Proof.
  unfold pushed_calls, run.
  destruct (decide (s = state (cached (self m)))) as [E | N].
  - rewrite !inform_client_equal by done. cbn.
    subst s. rewrite set_cached_state_id, app_nil_r. by destruct m.
  - by rewrite !inform_client_differs by done.
Qed.

Lemma pushed_calls_cached (w : World) (b : XWaylandSurface) :
  pushed_calls w b (state (cached b)) = [].
Proof. unfold pushed_calls, run. by rewrite inform_client_equal. Qed.

Lemma pushed_calls_not_to_shell w b s : Forall not_to_shell (pushed_calls w b s).
Proof. apply only_calls_run, inform_client_not_to_shell. Qed.

Lemma pushed_calls_wm_state_writes w b s :
  wm_state_writes (pushed_calls w b s) =
    if WindowState.eqb s (state (cached b)) then 0%nat else 1%nat.
Proof.
  unfold pushed_calls, run.
  destruct (WindowState.eqb s (state (cached b))) eqn:E.
  - apply WindowState_eqb_eq in E. by rewrite inform_client_equal.
  - apply WindowState_eqb_neq in E. rewrite inform_client_differs by done.
    cbn. by destruct (WindowState.withdrawn s).
Qed.

Lemma lift_inform_client (w : World) (s : WindowState.t) (m : Server) :
  lift (inform_client_of_window_state w s) m =
    (Returned tt,
     mkServer (set_cached_state s (bridge m))
       (server_calls m ++ (bridge_call <$> pushed_calls w (bridge m) s))).
Proof. unfold lift. by rewrite inform_client_run. Qed.

Lemma lift_request_scene_surface_state (w : World) (st : MirWindowState) (m : Server) :
  lift (request_scene_surface_state w st) m =
    (Returned tt,
     mkServer (bridge m)
       (server_calls m ++
        (bridge_call <$>
         match lock_surface w (weak_scene_surface (bridge m)) with
         | Some (id, s) =>
             if bool_decide (surface_state s = st) then []
             else [modify_surface (lock_session w (surface_session s)) id
                     (set_spec_state st empty_spec)]
         | None => []
         end))).
Proof. unfold lift. by rewrite request_scene_surface_state_run. Qed.

(** X7: [map] always returns, clears withdrawn in the cached state and
    writes nothing else of the bridge.  It first sets the desktop property
    to 1 and last maps the window and flushes; in between it rewrites the
    state properties exactly when the bridge was withdrawn (mapping a
    window that is already mapped rewrites none), and asks the shell for
    the state of the cached flags when a live scene surface is in another
    state. *)
Theorem map_clears_withdrawn
    (w : World) (atoms : ProtocolAtoms) (b : XWaylandSurface) :
  let r := serve (map w atoms) b in
  let mapped := WindowState.set_withdrawn false (state (cached b)) in
  fst r = Returned tt
  ∧ bridge (snd r) = set_cached_state mapped b
  ∧ ∃ pushed requested,
      server_calls (snd r) =
        [set_property_CARDINAL32 (window b) (net_wm_desktop atoms) 1] ++
        (bridge_call <$> pushed) ++ (bridge_call <$> requested) ++
        [xcb_map_window (window b); bridge_call flush]
      ∧ Forall not_to_shell pushed
      ∧ wm_state_writes pushed =
          (if WindowState.withdrawn (state (cached b)) then 1%nat else 0%nat)
      ∧ requested =
          match lock_surface w (weak_scene_surface b) with
          | Some (id, s) =>
              if bool_decide (surface_state s = WindowState.mir_window_state mapped)
              then []
              else [modify_surface (lock_session w (surface_session s)) id
                      (set_spec_state (WindowState.mir_window_state mapped)
                         empty_spec)]
          | None => []
          end.
Proof.
  cbv zeta. unfold map, serve.
  rewrite (handler_bind_returned get_bridge _ _ _ b) by reflexivity.
  erewrite handler_bind_returned by reflexivity.
  erewrite handler_bind_returned by apply lift_inform_client.
  erewrite handler_bind_returned by apply lift_request_scene_surface_state.
  erewrite handler_bind_returned by reflexivity.
  cbn [bridge server_calls fst snd server_call app].
  split; [reflexivity |]. split; [reflexivity |].
  eexists _, _. split.
  { rewrite <- !app_assoc. cbn [app]. reflexivity. }
  split; [apply pushed_calls_not_to_shell |]. split; [| reflexivity].
  rewrite pushed_calls_wm_state_writes.
  by destruct (state (cached b)) as [[] [] [] []].
Qed.

Lemma pushed_calls_detached w b s :
  pushed_calls w (detached b) s = pushed_calls w b s.
Proof.
  unfold pushed_calls, run.
  destruct (decide (s = state (cached b))) as [E | N].
  - by rewrite !inform_client_equal.
  - by rewrite !inform_client_differs.
Qed.

(** What [close] does, step by step. *)
Lemma close_run (w : World) (atoms : ProtocolAtoms) (n : nat) (m : Server) :
  let b := bridge m in
  let s := WindowState.set_withdrawn true (state (cached b)) in
  let scene_surface := lock_surface w (weak_scene_surface b) in
  close w atoms n m =
    (match surface_observer b with
     | Some _ =>
         if bool_decide (n ≠ 0%nat) then
           Thrown ("surface observer should have been deleted, but was not (use count "
                   +:+ pretty (S n) +:+ ")")
         else Returned tt
     | None => Returned tt
     end,
     mkServer (set_cached_state s (detached b))
       (server_calls m ++
        [delete_property (window b) (net_wm_desktop atoms)] ++
        (bridge_call <$> pushed_calls w b s) ++
        [xcb_unmap_window (window b); bridge_call flush] ++
        match scene_surface, surface_observer b with
        | Some (id, _), Some o => [remove_observer id o]
        | _, _ => []
        end ++
        match scene_surface with
        | Some (id, sf) =>
            [destroy_surface (lock_session w (surface_session sf)) id]
        | None => []
        end)).
Proof.
  cbv zeta. unfold close.
  rewrite (handler_bind_returned get_bridge _ _ _ (bridge m)) by reflexivity.
  do 4 (erewrite handler_bind_returned by reflexivity).
  erewrite handler_bind_returned by apply lift_inform_client.
  do 2 (erewrite handler_bind_returned by reflexivity).
  cbn [bridge server_calls].
  change (set_surface_observer None
            (set_weak_session None (set_weak_scene_surface None (bridge m))))
    with (detached (bridge m)).
  rewrite pushed_calls_detached.
  destruct (lock_surface w (weak_scene_surface (bridge m))) as [[id sf] |],
           (surface_observer (bridge m)) as [o |];
    unfold_h; cbn [bridge server_calls];
    try destruct (bool_decide (n ≠ 0%nat));
    rewrite <- ?app_assoc; cbn [app]; rewrite ?app_nil_r; reflexivity.
Qed.

(** X8: whether it returns or faults, [close] leaves the bridge with no
    scene surface, session or observer and with withdrawn set, the other
    flags, the geometry and the pending specification being kept; so the
    accessor answers none and the guard of [attach_wl_surface] is open
    again, whatever is alive in the server by then. *)
Theorem close_detaches
    (w : World) (atoms : ProtocolAtoms) (n : nat) (b : XWaylandSurface) :
  let closed := bridge (snd (serve (close w atoms n) b)) in
  closed =
    set_cached_state (WindowState.set_withdrawn true (state (cached b)))
      (detached b)
  ∧ attachment closed = (window b, None, None, None)
  ∧ ∀ w', scene_surface w' closed = None ∧ already_attached w' closed = false.
Proof.
  cbv zeta. unfold serve. rewrite close_run. cbn [snd bridge].
  split; [reflexivity |]. split; [reflexivity |]. by intros w'.
Qed.

(** X9: the only call [close] makes on the shell is one
    [destroy_surface], for the live scene surface if there is one; and it
    detaches the observer from that surface, before destroying it, exactly
    when the bridge has both. *)
Theorem close_destroys_live_surface
    (w : World) (atoms : ProtocolAtoms) (n : nat) (b : XWaylandSurface) :
  let log := server_calls (snd (serve (close w atoms n) b)) in
  filter (fun c => is_shell_call c = true) log =
    match lock_surface w (weak_scene_surface b) with
    | Some (id, sf) =>
        [destroy_surface (lock_session w (surface_session sf)) id]
    | None => []
    end
  ∧ filter (fun c => is_remove_observer c = true)
      log =
    match lock_surface w (weak_scene_surface b), surface_observer b with
    | Some (id, _), Some o => [remove_observer id o]
    | _, _ => []
    end
  ∧ match lock_surface w (weak_scene_surface b), surface_observer b with
    | Some (id, sf), Some o =>
        ∃ before,
          log = before ++
                [remove_observer id o;
                 destroy_surface (lock_session w (surface_session sf)) id]
    | _, _ => True
    end.
Proof.
  cbv zeta. unfold serve. rewrite close_run. cbn [snd bridge server_calls app].
  assert (Hshell : ∀ l, Forall not_to_shell l ->
            filter (fun c => is_shell_call c = true) (bridge_call <$> l) = []).
  { induction 1 as [| c l Hc _ IH]; [done |].
    rewrite fmap_cons, filter_cons_False; [done |].
    unfold not_to_shell in Hc. congruence. }
  assert (Hrem : ∀ l : list Call,
            filter (fun c => is_remove_observer c = true)
              (bridge_call <$> l) = []).
  { induction l as [| c l IH]; [done |].
    by rewrite fmap_cons, filter_cons_False. }
  repeat split.
  - rewrite filter_cons_False by (cbn; congruence).
    rewrite !filter_app, (Hshell _ (pushed_calls_not_to_shell _ _ _)).
    destruct (lock_surface w (weak_scene_surface b)) as [[id sf] |],
             (surface_observer b) as [o |]; reflexivity.
  - rewrite filter_cons_False by (cbn; congruence).
    rewrite !filter_app, Hrem.
    destruct (lock_surface w (weak_scene_surface b)) as [[id sf] |],
             (surface_observer b) as [o |]; reflexivity.
  - destruct (lock_surface w (weak_scene_surface b)) as [[id sf] |]; [| done].
    destruct (surface_observer b) as [o |]; [| done].
    eexists (_ :: _ ++ [_; _]). cbn. by rewrite <- app_assoc.
Qed.

(** X10: [close] faults exactly when the bridge had an observer and a
    reference to that observer is still held elsewhere once the bridge has
    dropped its own; the message gives the use count.  By then all of the
    teardown has been done. *)
Theorem close_faults_on_surviving_observer
    (w : World) (atoms : ProtocolAtoms) (n : nat) (b : XWaylandSurface) :
  let r := serve (close w atoms n) b in
  (fst r = Returned tt <-> surface_observer b = None ∨ n = 0%nat)
  ∧ (fst r ≠ Returned tt ->
     fst r =
       Thrown ("surface observer should have been deleted, but was not (use count "
               +:+ pretty (S n) +:+ ")")
     ∧ snd r = snd (serve (close w atoms 0) b)).
Proof.
  cbv zeta. unfold serve. rewrite !close_run. cbn [fst snd bridge].
  destruct (surface_observer b) as [o |].
  - destruct (decide (n = 0%nat)) as [-> | N].
    + split; [split; auto |]. intros H. by destruct H.
    + rewrite bool_decide_eq_true_2 by done.
      split; [split; [discriminate | intros [? | ?]; done] |]. done.
  - split; [split; auto |]. intros H. by destruct H.
Qed.

(** X11: closing a closed bridge is harmless.  Whatever the first
    [close] did, a second one returns, leaves the bridge as it is, and
    only deletes the desktop property, unmaps and flushes: no state
    property is written again and nothing is destroyed twice. *)
Theorem close_twice
    (w w' : World) (atoms : ProtocolAtoms) (n n' : nat) (b : XWaylandSurface) :
  let m1 := snd (serve (close w atoms n) b) in
  close w' atoms n' m1 =
    (Returned tt,
     mkServer (bridge m1)
       (server_calls m1 ++
        [delete_property (window b) (net_wm_desktop atoms);
         xcb_unmap_window (window b);
         bridge_call flush])).
Proof.
  cbv zeta. unfold serve. rewrite (close_run w), (close_run w').
  cbn [fst snd bridge server_calls].
  change (surface_observer (set_cached_state ?s (detached b))) with (@None WlSurfaceId).
  change (lock_surface w' (weak_scene_surface (set_cached_state ?s (detached b))))
    with (@None (SurfaceId * Surface)).
  cbn match.
  replace (pushed_calls w' _ _) with (@nil Call).
  - reflexivity.
  - symmetry. apply (pushed_calls_cached w' (set_cached_state _ (detached b))).
Qed.

(** The scene surface kept a reference to observer 9. *)
Lemma close_faults_on_surviving_observer_witness :
  fst (serve (close example_world example_atoms 1) observed_bridge) =
    Thrown ("surface observer should have been deleted, but was not (use count "
            +:+ pretty 2%nat +:+ ")").
Proof.
  apply (proj2 (close_faults_on_surviving_observer example_world example_atoms 1
                  observed_bridge)).
  vm_compute. discriminate.
Defined.

(** ** Property notifications *)

Lemma issue_read_run (entry : xcb_atom_t * PropertyHandler) (m : Machine) :
  issue_read entry m =
    (Returned tt,
     mkMachine (self m) (calls m ++ [read_property (window (self m)) (fst entry)])).
Proof. reflexivity. Qed.

(** The second phase of a read makes no call and keeps the references. *)
Lemma complete_read_run (w : World) (replies : PropertyReplies)
    (entry : xcb_atom_t * PropertyHandler) (m : Machine) :
  ∃ b', complete_read w replies entry m = (Returned tt, mkMachine b' (calls m)) ∧
        attachment b' = attachment (self m) ∧
        cached_top_left (cached b') = cached_top_left (cached (self m)) ∧
        cached_size (cached b') = cached_size (cached (self m)) ∧
        override_redirect (cached b') = override_redirect (cached (self m)) ∧
        state (cached b') = state (cached (self m)).
Proof.
  unfold complete_read. destruct m as [[win [o sz tl pr st] ps ws wse ob] log].
  destruct (snd entry), replies as [[?|] [?|] [?|] [?|] [?|]]; cbn;
    rewrite ?update_pending_spec_run, ?is_transient_for_run;
    eexists; (split; [reflexivity |]); repeat split.
Qed.

Lemma consume_pending_spec_run (m : Machine) :
  consume_pending_spec m =
    (Returned (nullable_pending_spec (self m)),
     mkMachine (set_nullable_pending_spec None (self m)) (calls m)).
Proof.
  unfold consume_pending_spec. unfold_m.
  destruct m as [[? ? [?|] ? ? ?] ?]; reflexivity.
Qed.

(** X12: [property_notify] always returns.  For an atom without a
    handler it does nothing at all.  For an atom with a handler it issues
    that one read and always leaves the bridge without a pending
    specification: what the reply put there is consumed whether or not it
    can be applied, and without a live scene surface it is dropped - the
    shell is not called.  In no case is the shell called more than
    once. *)
Theorem property_notify_consumes_pending_spec
    (w : World) (replies : PropertyReplies) (labels : SurfaceLabels)
    (property : xcb_atom_t) (b : XWaylandSurface) :
  let r := run (property_notify w replies labels property) b in
  fst r = Returned tt
  ∧ attachment (self (snd r)) = attachment b
  ∧ match find_handler property (property_handlers w) with
    | None => snd r = mkMachine b []
    | Some handler =>
        nullable_pending_spec (self (snd r)) = None ∧
        ∃ applied,
          calls (snd r) = read_property (window b) (fst handler) :: applied ∧
          shell_calls applied = applied ∧
          (length applied ≤ 1)%nat ∧
          (lock_surface w (weak_scene_surface b) = None -> applied = [])
    end.
Proof.
  cbv zeta. unfold run, property_notify.
  destruct (find_handler property (property_handlers w)) as [handler |];
    [| by repeat split].
  erewrite bind_returned by apply issue_read_run.
  destruct (complete_read_run w replies handler
              (mkMachine b ([] ++ [read_property (window b) (fst handler)])))
    as (b' & E & Ha & _).
  erewrite bind_returned by apply E.
  erewrite bind_returned by reflexivity.
  erewrite bind_returned by apply consume_pending_spec_run.
  cbn [self calls app] in *.
  assert (Hw : weak_scene_surface b' = weak_scene_surface b)
    by (unfold attachment in Ha; congruence).
  rewrite Hw.
  destruct (nullable_pending_spec b') as [spec |];
    destruct (lock_surface w (weak_scene_surface b)) as [[id sf] |];
    try destruct (spec_is_empty (drop_unchanged w labels sf spec));
    cbn; (split; [done |]); (split; [by destruct b' |]); (split; [done |]);
    eexists; (split; [reflexivity |]); repeat split; cbn; try done; lia.
Qed.

Lemma property_notify_consumes_pending_spec_witness :
  calls (snd (run (property_notify example_world example_replies
                     (mkLabels "xterm" "shell") XCB_ATOM_WM_NAME)
                example_bridge)) =
  [read_property 42 XCB_ATOM_WM_NAME].
Proof.
  pose proof (property_notify_consumes_pending_spec example_world
                example_replies (mkLabels "xterm" "shell") XCB_ATOM_WM_NAME
                example_bridge) as (_ & _ & H).
  cbn zeta in H.
  change (find_handler XCB_ATOM_WM_NAME (property_handlers example_world))
    with (Some (XCB_ATOM_WM_NAME, handle_wm_name)) in H.
  destruct H as (_ & applied & -> & _ & _ & Hnone).
  by rewrite (Hnone eq_refl).
Defined.

(** X13: the no-op filter of [property_notify].  On an attached bridge
    with nothing pending, a notification for [WM_NAME] (or [WM_CLASS])
    whose reply is the name (the application id) the scene surface already
    has only reads the property; a different value is handed to the shell
    in one modification that sets that attribute and nothing else. *)
Theorem property_notify_filters_unchanged_labels
    (w : World) (replies : PropertyReplies) (labels : SurfaceLabels)
    (b : XWaylandSurface) (id : SurfaceId) (sf : Surface) (value : string) :
  nullable_pending_spec b = None ->
  lock_surface w (weak_scene_surface b) = Some (id, sf) ->
  (reply_wm_name replies = Some value ->
   calls (snd (run (property_notify w replies labels XCB_ATOM_WM_NAME) b)) =
     read_property (window b) XCB_ATOM_WM_NAME ::
     if bool_decide (value = surface_name labels) then []
     else [modify_surface (lock_session w (surface_session sf)) id
             (set_spec_name value empty_spec)])
  ∧ (reply_wm_class replies = Some value ->
     calls (snd (run (property_notify w replies labels XCB_ATOM_WM_CLASS) b)) =
       read_property (window b) XCB_ATOM_WM_CLASS ::
       if bool_decide (value = surface_application_id labels) then []
       else [modify_surface (lock_session w (surface_session sf)) id
               (set_spec_application_id value empty_spec)]).
Proof.
  intros Hpending Hlock.
  destruct b as [win c ps ws wse ob]. cbn in Hpending, Hlock. subst ps.
  split; intros Hreply; unfold run, property_notify.
  - change (find_handler XCB_ATOM_WM_NAME (property_handlers w))
      with (Some (XCB_ATOM_WM_NAME, handle_wm_name)).
    cbv beta iota.
    erewrite bind_returned by apply issue_read_run.
    unfold complete_read. cbn [snd]. rewrite Hreply.
    erewrite bind_returned by apply update_pending_spec_run.
    erewrite bind_returned by reflexivity.
    erewrite bind_returned by apply consume_pending_spec_run.
    cbn [self calls nullable_pending_spec set_nullable_pending_spec
         weak_scene_surface default window app fst].
    rewrite Hlock. unfold drop_unchanged. cbn.
    destruct (bool_decide (value = surface_name labels)); reflexivity.
  - change (find_handler XCB_ATOM_WM_CLASS (property_handlers w))
      with (Some (XCB_ATOM_WM_CLASS, handle_wm_class)).
    cbv beta iota.
    erewrite bind_returned by apply issue_read_run.
    unfold complete_read. cbn [snd]. rewrite Hreply.
    erewrite bind_returned by apply update_pending_spec_run.
    erewrite bind_returned by reflexivity.
    erewrite bind_returned by apply consume_pending_spec_run.
    cbn [self calls nullable_pending_spec set_nullable_pending_spec
         weak_scene_surface default window app fst].
    rewrite Hlock. unfold drop_unchanged. cbn.
    destruct (bool_decide (value = surface_application_id labels)); reflexivity.
Qed.

(** The bridge of window 3 is notified of the name its surface has. *)
Lemma property_notify_filters_unchanged_labels_witness :
  calls (snd (run (property_notify transient_world example_replies
                     (mkLabels "xterm" "shell") XCB_ATOM_WM_NAME)
                (bridge_of_window 3 (Some 7%positive)))) =
  [read_property 3 XCB_ATOM_WM_NAME].
Proof.
  apply (proj1 (property_notify_filters_unchanged_labels transient_world
                  example_replies (mkLabels "xterm" "shell")
                  (bridge_of_window 3 (Some 7%positive))
                  7%positive example_parent_surface "shell"
                  eq_refl eq_refl)).
  reflexivity.
Defined.

Lemma drop_unchanged_position (w : World) (labels : SurfaceLabels)
    (sf : Surface) (spec : SurfaceSpecification) :
  spec_top_left (drop_unchanged w labels sf spec) = spec_top_left spec ∧
  spec_aux_rect (drop_unchanged w labels sf spec) = spec_aux_rect spec.
Proof.
  unfold drop_unchanged.
  destruct spec as [[a |] [n |] [p |] tl ar ph g1 g2 wd ht st]; cbn;
    repeat match goal with
           | |- context [bool_decide ?P] => destruct (bool_decide P); cbn
           end; done.
Qed.

Lemma spec_is_empty_position (spec : SurfaceSpecification) :
  spec_is_empty spec = true ->
  spec_top_left spec = None ∧ spec_aux_rect spec = None.
Proof.
  destruct spec as [[?|] [?|] [?|] [?|] [?|] [?|] [?|] [?|] [?|] [?|] [?|]];
    cbn; intros; done.
Qed.

Lemma set_position_positions parent top_left spec :
  spec_top_left (set_position parent top_left spec) ≠ None ∨
  spec_aux_rect (set_position parent top_left spec) ≠ None.
Proof. destruct parent as [[id p] |]; cbn; [right | left]; done. Qed.

(** X14: positions are not filtered.  On an attached bridge a
    notification for [WM_TRANSIENT_FOR] always ends in exactly one
    modification handed to the shell, whatever the reply and whatever was
    pending: the position that [is_transient_for] writes is part of it
    even when the parent resolved is the parent the surface already
    has. *)
Theorem property_notify_transient_for_always_modifies
    (w : World) (replies : PropertyReplies) (labels : SurfaceLabels)
    (b : XWaylandSurface) (id : SurfaceId) (sf : Surface) :
  net_wm_name (connection w) ≠ XCB_ATOM_WM_TRANSIENT_FOR ->
  lock_surface w (weak_scene_surface b) = Some (id, sf) ->
  ∃ mods,
    calls (snd (run (property_notify w replies labels XCB_ATOM_WM_TRANSIENT_FOR) b)) =
      [read_property (window b) XCB_ATOM_WM_TRANSIENT_FOR;
       modify_surface (lock_session w (surface_session sf)) id mods] ∧
    (spec_top_left mods ≠ None ∨ spec_aux_rect mods ≠ None).
Proof.
  intros Hatom Hlock. unfold run, property_notify.
  assert (find_handler XCB_ATOM_WM_TRANSIENT_FOR (property_handlers w) =
          Some (XCB_ATOM_WM_TRANSIENT_FOR, handle_wm_transient_for)) as ->.
  { unfold property_handlers. cbn.
    apply Z.eqb_neq in Hatom. by rewrite Hatom. }
  erewrite bind_returned by apply issue_read_run.
  set (tf := default XCB_WINDOW_NONE (reply_wm_transient_for replies)).
  assert (Hread : complete_read w replies
                    (XCB_ATOM_WM_TRANSIENT_FOR, handle_wm_transient_for) =
                  is_transient_for w tf).
  { unfold complete_read, tf. cbn. by destruct (reply_wm_transient_for replies). }
  rewrite Hread.
  erewrite bind_returned by apply is_transient_for_run.
  erewrite bind_returned by reflexivity.
  erewrite bind_returned by apply consume_pending_spec_run.
  cbn [self calls nullable_pending_spec set_nullable_pending_spec
       weak_scene_surface window app fst].
  rewrite Hlock.
  match goal with
  | |- context [drop_unchanged w labels sf ?spec] =>
      pose proof (drop_unchanged_position w labels sf spec) as [Htl Har];
      pose proof (spec_is_empty_position (drop_unchanged w labels sf spec)) as Hempty;
      pose proof (set_position_positions (resolve_transient_for w tf)
                    (cached_top_left (cached b))
                    (set_spec_parent (fst <$> resolve_transient_for w tf)
                       (default empty_spec (nullable_pending_spec b)))) as Hpos;
      destruct (spec_is_empty (drop_unchanged w labels sf spec)) eqn:E
  end.
  - destruct (Hempty eq_refl) as [H1 H2]. rewrite Htl in H1. rewrite Har in H2.
    destruct Hpos as [Hpos | Hpos]; by destruct Hpos.
  - cbn. eexists. split; [reflexivity |]. rewrite Htl, Har. exact Hpos.
Qed.

(** Window 3, whose surface 7 is alive, loses its transient-for hint. *)
Lemma property_notify_transient_for_always_modifies_witness :
  ∃ mods,
    calls (snd (run (property_notify transient_world example_replies
                       (mkLabels "xterm" "shell") XCB_ATOM_WM_TRANSIENT_FOR)
                  (bridge_of_window 3 (Some 7%positive)))) =
      [read_property 3 XCB_ATOM_WM_TRANSIENT_FOR;
       modify_surface (Some 1%positive) 7%positive mods] ∧
    (spec_top_left mods ≠ None ∨ spec_aux_rect mods ≠ None).
Proof.
  apply (property_notify_transient_for_always_modifies transient_world
           example_replies (mkLabels "xterm" "shell")
           (bridge_of_window 3 (Some 7%positive)) 7%positive
           example_parent_surface).
  - discriminate.
  - reflexivity.
Defined.

(** ** The first attach *)

Lemma pushed_calls_ext (w : World) (b b' : XWaylandSurface) (s : WindowState.t) :
  window b = window b' -> state (cached b) = state (cached b') ->
  pushed_calls w b s = pushed_calls w b' s.
Proof.
  intros Hw Hs. unfold pushed_calls, run.
  destruct (decide (s = state (cached b))) as [E | N].
  - rewrite !inform_client_equal; [done | cbn; congruence | done].
  - rewrite !inform_client_differs; [cbn; by rewrite Hw | cbn; congruence | done].
Qed.

Lemma for_each_issue_read
    (table : list (xcb_atom_t * PropertyHandler)) (m : Machine) :
  for_each issue_read table m =
    (Returned tt,
     mkMachine (self m)
       (calls m ++ (read_property (window (self m)) <$> (fst <$> table)))).
Proof.
  revert m. induction table as [| entry table IH]; intros m.
  - cbn. rewrite app_nil_r. by destruct m.
  - cbn [for_each]. erewrite bind_returned by apply issue_read_run.
    rewrite IH. cbn. by rewrite <- app_assoc.
Qed.

Lemma complete_read_wm_protocols
    (w : World) (replies : PropertyReplies) (atom : xcb_atom_t) (m : Machine) :
  complete_read w replies (atom, handle_wm_protocols) m =
    (Returned tt,
     mkMachine
       (set_supported_wm_protocols
          (match reply_wm_protocols replies with
           | Some value => list_to_set value
           | None => ∅
           end) (self m))
       (calls m)).
Proof.
  unfold complete_read. cbn [snd].
  by destruct (reply_wm_protocols replies).
Qed.

(** The second phases of the five reads of [attach_wl_surface]: no call is
    made, the references, the geometry and the state are kept, and a
    pending specification is left that names the parent resolved. *)
Lemma for_each_complete_read
    (w : World) (replies : PropertyReplies) (m : Machine) :
  ∃ b' spec,
    for_each (complete_read w replies) (property_handlers w) m =
      (Returned tt, mkMachine b' (calls m)) ∧
    attachment b' = attachment (self m) ∧
    cached_top_left (cached b') = cached_top_left (cached (self m)) ∧
    cached_size (cached b') = cached_size (cached (self m)) ∧
    override_redirect (cached b') = override_redirect (cached (self m)) ∧
    state (cached b') = state (cached (self m)) ∧
    nullable_pending_spec b' = Some spec ∧
    spec_parent spec =
      Some (fst <$> resolve_transient_for w
                      (default XCB_WINDOW_NONE (reply_wm_transient_for replies))).
Proof.
  unfold property_handlers. cbn [for_each].
  destruct (complete_read_run w replies (XCB_ATOM_WM_CLASS, handle_wm_class) m)
    as (b1 & E1 & A1 & T1 & S1 & O1 & W1).
  erewrite bind_returned by apply E1.
  destruct (complete_read_run w replies (XCB_ATOM_WM_NAME, handle_wm_name)
              (mkMachine b1 (calls m)))
    as (b2 & E2 & A2 & T2 & S2 & O2 & W2).
  erewrite bind_returned by apply E2.
  destruct (complete_read_run w replies
              (net_wm_name (connection w), handle_net_wm_name)
              (mkMachine b2 (calls m)))
    as (b3 & E3 & A3 & T3 & S3 & O3 & W3).
  erewrite bind_returned by apply E3.
  cbn [self calls] in *.
  set (tf := default XCB_WINDOW_NONE (reply_wm_transient_for replies)).
  assert (Hread : complete_read w replies
                    (XCB_ATOM_WM_TRANSIENT_FOR, handle_wm_transient_for) =
                  is_transient_for w tf).
  { unfold complete_read, tf. cbn. by destruct (reply_wm_transient_for replies). }
  rewrite Hread.
  erewrite bind_returned by apply is_transient_for_run.
  erewrite bind_returned by apply complete_read_wm_protocols.
  cbn [self calls for_each].
  eexists _,
    (set_position (resolve_transient_for w tf) (cached_top_left (cached b3))
       (set_spec_parent (fst <$> resolve_transient_for w tf)
          (default empty_spec (nullable_pending_spec b3)))).
  split; [reflexivity |].
  clear E1 E2 E3 Hread. unfold attachment in *.
  destruct b3 as [win [o sz tl pr st] ps ws wse ob]; cbn in *.
  repeat split; try congruence.
  by destruct (resolve_transient_for w tf) as [[? ?] |].
Qed.

(** The whole of a first attach. *)
Lemma attach_wl_surface_fresh_run
    (w : World) (wl_surface : WlSurface) (replies : PropertyReplies)
    (surface : SurfaceId * Surface) (b : XWaylandSurface) :
  already_attached w b = false ->
  ∃ spec pushed b',
    run (attach_wl_surface w wl_surface replies surface) b =
      (Returned tt,
       mkMachine b'
         ((read_property (window b) <$>
           [XCB_ATOM_WM_CLASS; XCB_ATOM_WM_NAME; net_wm_name (connection w);
            XCB_ATOM_WM_TRANSIENT_FOR; wm_protocols (connection w)]) ++
          [create_surface (wl_session wl_surface)
             (mkParams (wl_streams wl_surface) (wl_input_shape wl_surface)
                (cached_size (cached b)) (cached_top_left (cached b))
                mir_window_type_freestyle
                (WindowState.mir_window_state (state (cached b)))
                (negb (override_redirect (cached b)))
                (Some spec))
             (wl_id wl_surface)] ++
          pushed ++
          [configure_window (window b)
             (Some (geom.add (surface_top_left (snd surface))
                      (surface_content_offset (snd surface))))
             (Some (surface_content_size (snd surface)))
             None (Some XCB_STACK_MODE_ABOVE)]))
    ∧ spec_parent spec =
        Some (fst <$> resolve_transient_for w
                        (default XCB_WINDOW_NONE (reply_wm_transient_for replies)))
    ∧ pushed = pushed_calls w b (WindowState.set_withdrawn false (state (cached b)))
    ∧ attachment b' =
        (window b, Some (fst surface), Some (wl_session wl_surface),
         Some (wl_id wl_surface))
    ∧ nullable_pending_spec b' = None
    ∧ state (cached b') = WindowState.set_withdrawn false (state (cached b))
    ∧ cached_top_left (cached b') = cached_top_left (cached b)
    ∧ cached_size (cached b') = cached_size (cached b).
Proof.
  intros H. unfold run, attach_wl_surface.
  rewrite (bind_returned get_self _ _ _ b) by reflexivity.
  cbn [self]. rewrite H. cbv zeta.
  do 2 (erewrite bind_returned by reflexivity).
  erewrite bind_returned by apply for_each_issue_read.
  match goal with
  | |- context [(for_each (complete_read w replies) (property_handlers w) ≫= _) ?m0] =>
      destruct (for_each_complete_read w replies m0)
        as (b1 & spec & E & A & T & S & O & W & P & Hparent)
  end.
  erewrite bind_returned by apply E.
  erewrite bind_returned by apply consume_pending_spec_run.
  erewrite bind_returned by reflexivity.
  erewrite bind_returned by apply inform_client_run.
  erewrite bind_returned by reflexivity.
  cbn [self calls window fst snd] in *.
  rewrite P. unfold modify_self. cbn [self calls].
  unfold attachment in A.
  rewrite (pushed_calls_ext w (set_nullable_pending_spec None b1) b)
    by (destruct b, b1; cbn in *; congruence).
  rewrite <- !app_assoc.
  exists spec, (pushed_calls w b (WindowState.set_withdrawn false (state (cached b)))).
  eexists. split; [reflexivity |].
  destruct b as [win [o sz tl pr st] ps ws wse ob],
           b1 as [win1 [o1 sz1 tl1 pr1 st1] ps1 ws1 wse1 ob1].
  cbn in *. simplify_eq. repeat split; done.
Qed.



(** X16: a bridge as the constructor leaves it is attached in no state
    of the server, and its first attach asks the shell for a surface at
    the position and with the size of the create event, decorated by the
    server unless the event says override-redirect.  The constructor
    itself only selects property and focus change events on the window. *)
Theorem new_bridge_attaches_with_event_geometry
    (w : World) (initial : WindowState.t) (event : xcb_create_notify_event_t)
    (wl_surface : WlSurface) (replies : PropertyReplies)
    (surface : SurfaceId * Surface) :
  let b := fst (XWaylandSurface_new initial event) in
  snd (XWaylandSurface_new initial event) =
    [xcb_change_window_attributes (create_window event) 2048 6291456]
  ∧ already_attached w b = false
  ∧ ∃ spec reads rest,
      calls (snd (run (attach_wl_surface w wl_surface replies surface) b)) =
        reads ++
        [create_surface (wl_session wl_surface)
           (mkParams (wl_streams wl_surface) (wl_input_shape wl_surface)
              (geom.mkSize (create_width event) (create_height event))
              (geom.mkPoint (create_x event) (create_y event))
              mir_window_type_freestyle
              (WindowState.mir_window_state initial)
              (negb (create_override_redirect event))
              (Some spec))
           (wl_id wl_surface)] ++
        rest
      ∧ Forall (fun c => match c with read_property _ _ => True | _ => False end)
          reads
      ∧ Forall not_to_shell rest.
Proof.
  cbv zeta. split; [reflexivity |]. split; [reflexivity |].
  destruct (attach_wl_surface_fresh_run w wl_surface replies surface
              (fst (XWaylandSurface_new initial event)) eq_refl)
    as (spec & pushed & b' & E & _ & Hpushed & _).
  rewrite E. cbn [snd calls]. eexists spec, _, _.
  split; [reflexivity |]. split.
  - repeat constructor.
  - apply Forall_app. split.
    + subst pushed. apply pushed_calls_not_to_shell.
    + repeat constructor.
Qed.


(** ** Repeated and combined events *)

Lemma updated_from_idempotent (s : WindowState.t) (st : MirWindowState) :
  WindowState.updated_from (WindowState.updated_from s st) st =
  WindowState.updated_from s st.
Proof. by destruct s, st. Qed.

(** X17: a native state reported twice is pushed once.  After
    [scene_surface_state_set] has handled a state, handling the same
    state again writes no property and changes no field; the only call it
    repeats is the lowering of the window for
    [mir_window_state_minimized]. *)
Theorem scene_surface_state_set_twice
    (w : World) (b : XWaylandSurface) (st : MirWindowState) :
  let m1 := snd (run (scene_surface_state_set w st) b) in
  scene_surface_state_set w st m1 =
    (Returned tt,
     mkMachine (self m1)
       (calls m1 ++
        if bool_decide (st = mir_window_state_minimized) then
          [configure_window (window b) None None None (Some XCB_STACK_MODE_BELOW)]
        else [])).
Proof.
  cbv zeta.
  pose proof (proj1 (handlers_preserve_attachment_aux w) st (mkMachine b [])) as Ha.
  change (attachment (self (snd (run (scene_surface_state_set w st) b))) =
          attachment b) in Ha.
  assert (Hs : state (cached (self (snd (run (scene_surface_state_set w st) b)))) =
               WindowState.updated_from (state (cached b)) st).
  { unfold run. rewrite scene_surface_state_set_unfold.
    pose proof (inform_client_self w
      (WindowState.updated_from (state (cached b)) st) (mkMachine b [])) as [Hr Hs].
    cbn [self] in *.
    destruct (inform_client_of_window_state w _ (mkMachine b []))
      as [[[] | e] m1] eqn:E; simpl in Hr, Hs; [| discriminate].
    rewrite (bind_returned _ _ _ _ _ E).
    destruct (bool_decide (st = mir_window_state_minimized) ||
              bool_decide (st = mir_window_state_minimized));
      cbn; by rewrite Hs. }
  set (m1 := snd (run (scene_surface_state_set w st) b)) in *.
  rewrite scene_surface_state_set_unfold, Hs, updated_from_idempotent.
  erewrite bind_returned by (apply inform_client_equal; by rewrite Hs).
  assert (window (self m1) = window b) as -> by (by injection Ha).
  rewrite orb_diag.
  destruct (bool_decide (st = mir_window_state_minimized)).
  - by destruct m1.
  - cbn. rewrite app_nil_r. by destruct m1.
Qed.

(** X18: with a live scene surface, [configure_request] never touches the
    legacy window or the bridge's fields; it hands the shell at most one
    modification, never an empty one, and a modification that sets the
    width sets the height as well.  A request that flags none of X, Y,
    width and height makes no call at all. *)
Theorem configure_request_attached
    (w : World) (b : XWaylandSurface) (event : xcb_configure_request_event_t)
    (id : SurfaceId) (sf : Surface) :
  lock_surface w (weak_scene_surface b) = Some (id, sf) ->
  let r := run (configure_request w event) b in
  fst r = Returned tt
  ∧ self (snd r) = b
  ∧ (calls (snd r) = [] ∨
     ∃ mods,
       calls (snd r) =
         [modify_surface (lock_session w (surface_session sf)) id mods] ∧
       spec_is_empty mods = false ∧
       (is_Some (spec_width mods) <-> is_Some (spec_height mods)))
  ∧ (Z.land (value_mask event) XCB_CONFIG_WINDOW_X = 0 ->
     Z.land (value_mask event) XCB_CONFIG_WINDOW_Y = 0 ->
     Z.land (value_mask event) XCB_CONFIG_WINDOW_WIDTH = 0 ->
     Z.land (value_mask event) XCB_CONFIG_WINDOW_HEIGHT = 0 ->
     calls (snd r) = []).
Proof.
  intros Hlock. cbv zeta. unfold run, configure_request.
  rewrite (bind_returned get_self _ _ _ b) by reflexivity.
  cbn [self]. rewrite Hlock. cbv zeta.
  match goal with
  | |- context [spec_is_empty ?mods] => set (modifications := mods)
  end.
  assert (Hboth : is_Some (spec_width modifications) <->
                  is_Some (spec_height modifications)).
  { subst modifications.
    repeat match goal with
           | |- context [bool_decide ?P] => destruct (bool_decide P)
           end;
      try destruct (lock_surface w (surface_parent sf)) as [[? ?] |];
      cbn; split; intros [? ?]; by eauto. }
  split; [by destruct (spec_is_empty modifications) |].
  split; [by destruct (spec_is_empty modifications) |].
  split.
  - destruct (spec_is_empty modifications) eqn:E; cbn; [by left |].
    right. by exists modifications.
  - intros HX HY HW HH. subst modifications. unfold mask_has.
    rewrite HX, HY, HW, HH. cbn [Z.eqb negb].
    rewrite !bool_decide_eq_false_2;
      [reflexivity | intros N; apply N ..];
      first [reflexivity | by destruct (surface_content_size sf)].
Qed.

(** The bridge of window 3 is asked to become 640 wide while its surface
    is 640x480: nothing is handed to the shell. *)
Lemma configure_request_attached_witness :
  run (configure_request transient_world (mkConfigureRequest 0 0 0 0 0))
    (bridge_of_window 3 (Some 7%positive)) =
  (Returned tt, mkMachine (bridge_of_window 3 (Some 7%positive)) []).
Proof.
  destruct (configure_request_attached transient_world
              (bridge_of_window 3 (Some 7%positive))
              (mkConfigureRequest 0 0 0 0 0) 7%positive example_parent_surface
              eq_refl) as (Hr & Hs & _ & Hnone).
  cbn zeta in *.
  destruct (run (configure_request transient_world (mkConfigureRequest 0 0 0 0 0))
              (bridge_of_window 3 (Some 7%positive))) as [o [b' log]].
  cbn in Hr, Hs, Hnone. rewrite Hr, Hs, Hnone; reflexivity.
Defined.

(** X19: the cache follows the echo, not the request.  Without a scene
    surface, [configure_request] sends the window the requested value of
    each flagged coordinate and the cached value of the others, and leaves
    the cache alone; once [configure_notify] reports that geometry back,
    the cache holds it, and nothing else of the bridge has changed. *)
Theorem configure_request_then_notify
    (w : World) (b : XWaylandSurface) (event : xcb_configure_request_event_t)
    (o : bool) :
  lock_surface w (weak_scene_surface b) = None ->
  let pick bit requested cached_value :=
    if Z.land (value_mask event) bit =? 0 then cached_value else requested in
  let position :=
    geom.mkPoint
      (pick XCB_CONFIG_WINDOW_X (event_x event) (geom.x (cached_top_left (cached b))))
      (pick XCB_CONFIG_WINDOW_Y (event_y event) (geom.y (cached_top_left (cached b)))) in
  let size :=
    geom.mkSize
      (pick XCB_CONFIG_WINDOW_WIDTH (event_width event)
         (geom.width (cached_size (cached b))))
      (pick XCB_CONFIG_WINDOW_HEIGHT (event_height event)
         (geom.height (cached_size (cached b)))) in
  let echo :=
    mkConfigureNotify o (geom.x position) (geom.y position)
      (geom.width size) (geom.height size) in
  run (configure_request w event) b =
    (Returned tt,
     mkMachine b
       [configure_window (window b) (Some position) (Some size) None None; flush])
  ∧ let b' := self (snd (run (configure_request w event ;; configure_notify echo) b)) in
    cached_top_left (cached b') = position ∧
    cached_size (cached b') = size ∧
    override_redirect (cached b') = o ∧
    state (cached b') = state (cached b) ∧
    supported_wm_protocols (cached b') = supported_wm_protocols (cached b) ∧
    nullable_pending_spec b' = nullable_pending_spec b ∧
    attachment b' = attachment b.
Proof.
  intros Hlock. cbv zeta.
  assert (E : ∀ m, self m = b ->
    configure_request w event m =
      (Returned tt,
       mkMachine b
         (calls m ++
          [configure_window (window b)
             (Some (geom.mkPoint
                (if Z.land (value_mask event) XCB_CONFIG_WINDOW_X =? 0
                 then geom.x (cached_top_left (cached b)) else event_x event)
                (if Z.land (value_mask event) XCB_CONFIG_WINDOW_Y =? 0
                 then geom.y (cached_top_left (cached b)) else event_y event)))
             (Some (geom.mkSize
                (if Z.land (value_mask event) XCB_CONFIG_WINDOW_WIDTH =? 0
                 then geom.width (cached_size (cached b)) else event_width event)
                (if Z.land (value_mask event) XCB_CONFIG_WINDOW_HEIGHT =? 0
                 then geom.height (cached_size (cached b)) else event_height event)))
             None None; flush]))).
  { intros [b0 log] ?. cbn in *. subst b0.
    unfold configure_request. unfold_m. cbn [self calls]. rewrite Hlock.
    unfold mask_has.
    repeat match goal with
           | |- context [Z.land ?a ?c =? 0] => destruct (Z.land a c =? 0)
           end; cbn [negb]; by rewrite <- app_assoc. }
  split.
  - unfold run. by rewrite E.
  - unfold run. erewrite bind_returned by (by apply E).
    by destruct b as [? [] ? ? ? ?].
Qed.

(** A request for X = 55 on the fresh example bridge, and its echo. *)
Lemma configure_request_then_notify_witness :
  cached_top_left
    (cached
       (self (snd (run (configure_request example_world example_configure_x ;;
                        configure_notify (mkConfigureNotify false 55 20 300 200))
                     example_bridge)))) = geom.mkPoint 55 20.
Proof.
  apply (proj2 (configure_request_then_notify example_world example_bridge
                  example_configure_x false eq_refl)).
Defined.

(** ** The EWMH state list, written and read back *)

Lemma add_recognized (w : World) (p : xcb_atom_t) (s : WindowState.t) :
  p ≠ 0 ->
  apply_action w 1 p s = snd (store (select_prop_ptr w p) true false s).
Proof.
  intros Hp. rewrite apply_action_target. cbv zeta.
  by rewrite (proj2 (Z.eqb_neq _ _) Hp).
Qed.

(** X20: the list of atoms the bridge writes to [_NET_WM_STATE] for a
    state that is not withdrawn reads back as that state: a client that
    sent one ADD message per atom of the list to a bridge with all flags
    clear would set exactly the flags the list was written from.  (The
    three atoms the handler knows are non-zero and distinct, and the
    maximized-vertical atom is neither the hidden nor the fullscreen
    atom, as in any X server.) *)
Theorem net_wm_state_list_reads_back
    (w : World) (b : XWaylandSurface) (s : WindowState.t) :
  let conn := connection w in
  net_wm_state_hidden conn ≠ 0 ->
  net_wm_state_maximized_horz conn ≠ 0 ->
  net_wm_state_fullscreen conn ≠ 0 ->
  net_wm_state_hidden conn ≠ net_wm_state_maximized_horz conn ->
  net_wm_state_hidden conn ≠ net_wm_state_fullscreen conn ->
  net_wm_state_maximized_horz conn ≠ net_wm_state_fullscreen conn ->
  net_wm_state_maximized_vert conn ≠ net_wm_state_hidden conn ->
  net_wm_state_maximized_vert conn ≠ net_wm_state_fullscreen conn ->
  WindowState.withdrawn s = false ->
  s ≠ state (cached b) ->
  ∃ icccm advertised,
    pushed_calls w b s =
      [set_property XCBType_WM_STATE (window b) (wm_state conn) icccm;
       set_property XCBType_ATOM (window b) (net_wm_state conn) advertised;
       flush] ∧
    fold_left (fun acc p => apply_action w 1 p acc) advertised
      (WindowState.mk false false false false) = s.
Proof.
  intros conn Hh Hm Hf Hhm Hhf Hmf Hvh Hvf Hwd Hne.
  unfold pushed_calls, run. rewrite inform_client_differs by done.
  cbn [snd calls self app]. rewrite Hwd.
  eexists _, _. split; [reflexivity |].
  assert (Ah : ∀ s, apply_action w 1 (net_wm_state_hidden conn) s =
                    WindowState.set_minimized true s).
  { intros s'. rewrite add_recognized by done. unfold select_prop_ptr.
    fold conn. by rewrite Z.eqb_refl. }
  assert (Am : ∀ s, apply_action w 1 (net_wm_state_maximized_horz conn) s =
                    WindowState.set_maximized true s).
  { intros s'. rewrite add_recognized by done. unfold select_prop_ptr.
    fold conn.
    rewrite (proj2 (Z.eqb_neq _ _) (not_eq_sym Hhm)). by rewrite Z.eqb_refl. }
  assert (Af : ∀ s, apply_action w 1 (net_wm_state_fullscreen conn) s =
                    WindowState.set_fullscreen true s).
  { intros s'. rewrite add_recognized by done. unfold select_prop_ptr.
    fold conn.
    rewrite (proj2 (Z.eqb_neq _ _) (not_eq_sym Hhf)),
            (proj2 (Z.eqb_neq _ _) (not_eq_sym Hmf)). by rewrite Z.eqb_refl. }
  assert (Av : ∀ s, apply_action w 1 (net_wm_state_maximized_vert conn)
                      (WindowState.set_maximized true s) =
                    WindowState.set_maximized true s).
  { intros s'. rewrite apply_action_target. cbv zeta.
    destruct (net_wm_state_maximized_vert conn =? 0); [reflexivity |].
    unfold select_prop_ptr. fold conn.
    rewrite (proj2 (Z.eqb_neq _ _) Hvh), (proj2 (Z.eqb_neq _ _) Hvf).
    by destruct (net_wm_state_maximized_vert conn =?
                 net_wm_state_maximized_horz conn). }
  destruct s as [wd [] [] []]; cbn in Hwd; subst wd;
    cbn [app fold_left WindowState.minimized WindowState.maximized
         WindowState.fullscreen];
    fold conn; rewrite ?Ah, ?Am, ?Av, ?Af; reflexivity.
Qed.

Lemma net_wm_state_list_reads_back_witness :
  ∃ icccm advertised,
    pushed_calls example_world example_bridge
      (WindowState.mk false false true true) =
      [set_property XCBType_WM_STATE 42 300 icccm;
       set_property XCBType_ATOM 42 303 advertised; flush] ∧
    fold_left (fun acc p => apply_action example_world 1 p acc) advertised
      (WindowState.mk false false false false) =
    WindowState.mk false false true true.
Proof.
  apply (net_wm_state_list_reads_back example_world example_bridge
           (WindowState.mk false false true true));
    first [reflexivity | discriminate].
Defined.

(** ** The protocols a client advertises *)

(** X21: the reply to the last read of [WM_PROTOCOLS] alone decides how
    the bridge treats the client.  After the notification, a close
    request sends [WM_DELETE_WINDOW] when the reply lists it and kills the
    client otherwise - also when the read failed, whatever was advertised
    before - and [take_focus] sends [WM_TAKE_FOCUS] exactly when the
    reply lists it, sets the input focus in any case, and does nothing at
    all for an override-redirect window. *)
Theorem wm_protocols_reply_decides
    (w : World) (atoms : ProtocolAtoms) (replies : PropertyReplies)
    (labels : SurfaceLabels) (b : XWaylandSurface) :
  wm_protocols (connection w) ≠ XCB_ATOM_WM_CLASS ->
  wm_protocols (connection w) ≠ XCB_ATOM_WM_NAME ->
  wm_protocols (connection w) ≠ net_wm_name (connection w) ->
  wm_protocols (connection w) ≠ XCB_ATOM_WM_TRANSIENT_FOR ->
  let b' :=
    self (snd (run (property_notify w replies labels (wm_protocols (connection w))) b)) in
  let advertised := default [] (reply_wm_protocols replies) in
  server_calls (snd (serve (scene_surface_close_requested atoms) b')) =
    [if bool_decide (wm_delete_window atoms ∈ advertised) then
       send_client_message_WM_PROTOCOLS (window b) XCB_EVENT_MASK_NO_EVENT
         [wm_delete_window atoms; XCB_TIME_CURRENT_TIME]
     else xcb_kill_client (window b);
     bridge_call flush]
  ∧ server_calls (snd (serve (take_focus atoms) b')) =
      if override_redirect (cached b) then []
      else
        (if bool_decide (wm_take_focus atoms ∈ advertised) then
           [send_client_message_WM_PROTOCOLS (window b)
              XCB_EVENT_MASK_SUBSTRUCTURE_REDIRECT
              [wm_take_focus atoms; XCB_TIME_CURRENT_TIME]]
         else []) ++
        [xcb_set_input_focus XCB_INPUT_FOCUS_POINTER_ROOT (window b)
           XCB_CURRENT_TIME;
         bridge_call flush].
Proof.
  intros H1 H2 H3 H4. cbv zeta.
  assert (Hb' : self (snd (run (property_notify w replies labels
                                  (wm_protocols (connection w))) b)) =
                set_nullable_pending_spec None
                  (set_supported_wm_protocols
                     (list_to_set (default [] (reply_wm_protocols replies))) b)).
  { unfold run, property_notify.
    assert (find_handler (wm_protocols (connection w)) (property_handlers w) =
            Some (wm_protocols (connection w), handle_wm_protocols)) as ->.
    { unfold property_handlers. cbn [find_handler fst].
      rewrite !(proj2 (Z.eqb_neq _ _)) by (by apply not_eq_sym).
      by rewrite Z.eqb_refl. }
    erewrite bind_returned by apply issue_read_run.
    erewrite bind_returned by apply complete_read_wm_protocols.
    erewrite bind_returned by reflexivity.
    erewrite bind_returned by apply consume_pending_spec_run.
    cbn [self calls nullable_pending_spec set_supported_wm_protocols set_cached
         weak_scene_surface].
    assert (∀ (c : M unit) m, (c = mret tt ∨ ∃ x, c = call x) -> self (snd (c m)) = self m)
      as Hkeep by (intros c m [-> | [x ->]]; reflexivity).
    destruct (reply_wm_protocols replies) as [l |];
      [| change (list_to_set (default [] None)) with (∅ : gset Z)];
      (destruct (nullable_pending_spec b) as [spec |];
       [ destruct (lock_surface w (weak_scene_surface b)) as [[id sf] |];
         [ destruct (negb (spec_is_empty (drop_unchanged w labels sf spec))) |] |]);
      reflexivity. }
  rewrite Hb'. clear Hb'.
  set (advertised := default [] (reply_wm_protocols replies)).
  assert (Hin : ∀ a, bool_decide (a ∈ (list_to_set advertised : gset Z)) =
                     bool_decide (a ∈ advertised)).
  { intros a. apply bool_decide_ext. apply elem_of_list_to_set. }
  split.
  - unfold scene_surface_close_requested. unfold_h.
    cbn [bridge server_calls cached supported_wm_protocols window
         set_nullable_pending_spec set_supported_wm_protocols set_cached].
    rewrite Hin. repeat case_bool_decide; first [reflexivity | contradiction].
  - unfold take_focus. unfold_h.
    cbn [bridge server_calls cached supported_wm_protocols window override_redirect
         set_nullable_pending_spec set_supported_wm_protocols set_cached].
    destruct (override_redirect (cached b)); [reflexivity |].
    rewrite Hin. repeat case_bool_decide; first [reflexivity | contradiction].
Qed.

(** A client that advertised nothing readable is killed on close. *)
Lemma wm_protocols_reply_decides_witness :
  server_calls
    (snd (serve (scene_surface_close_requested example_atoms)
            (self (snd (run (property_notify example_world example_replies
                               (mkLabels "xterm" "shell") 301)
                          example_bridge))))) =
  [xcb_kill_client 42; bridge_call flush].
Proof.
  apply (proj1 (wm_protocols_reply_decides example_world example_atoms
                  example_replies (mkLabels "xterm" "shell") example_bridge
                  ltac:(discriminate) ltac:(discriminate) ltac:(discriminate)
                  ltac:(discriminate))).
Defined.
